(** * The [functools.total_ordering] plugin of mypy (mypy/plugins/functools.py)

    A shallow embedding of the plugin and the properties of its three
    functions: the scan of the method resolution order ([_analyze_class]),
    the extraction of the operand type ([_find_other_type]) and the entry
    point ([functools_total_ordering_maker_callback]).

    The plugin talks to the rest of mypy through a handful of facilities
    (the classes and functions it imports from [mypy.types], the semantic
    analyzer API and [add_method_to_class]).  The facilities that inspect
    types are an interface ([Mypy]); the calls that act on the outside
    world ([ctx.api.fail], [add_method_to_class]) are recorded, in call
    order, as the result of a run. *)

From Stdlib Require Import ZArith List Permutation.
From stdpp Require Import gmap strings list.

Import Ascii.AsciiSyntax.
Local Open Scope Z_scope.
Delimit Scope char_scope with char.

(** ** The Python operations the plugin relies on *)

Module Py.

(** The double-quote character (code 34), for the diagnostics that quote
    a name. *)
Definition dquote : string :=
  String (Ascii.Ascii false true false false false true false false) EmptyString.

(** Comparison [a < b] of two tuples of integers: the first position where
    they differ decides; a proper prefix is smaller. *)
Fixpoint tuple_lt (a b : list Z) : bool :=
  match a, b with
  | _, [] => false
  | [], _ :: _ => true
  | x :: a', y :: b' => if Z.eqb x y then tuple_lt a' b' else Z.ltb x y
  end.

(** [bool] is a subclass of [int]: [False] is 0 and [True] is 1. *)
Definition int_of_bool (b : bool) : Z := if b then 1 else 0.

(** Comparison [x > y] of two [(bool, str)] tuples; strings compare
    lexicographically by character code. *)
Definition pair_gt (x y : bool * string) : bool :=
  if Bool.eqb x.1 y.1
  then (if String.eqb x.2 y.2 then false else String.ltb y.2 x.2)
  else Z.ltb (int_of_bool y.1) (int_of_bool x.1).

(** [max(iterable, key=key)]: the first item whose key is maximal;
    [None] stands for the [ValueError] raised on an empty iterable. *)
Definition max {A K : Type} (gt : K → K → bool) (key : A → K)
    (l : list A) : option A :=
  match l with
  | [] => None
  | x :: l' =>
      Some (fold_left (λ best y, if gt (key y) (key best) then y else best) l' x)
  end.

(** [s.split(sep)] for a one-character separator. *)
Fixpoint split (sep : Ascii.ascii) (s : string) : list string :=
  match s with
  | EmptyString => [EmptyString]
  | String c s' =>
      if Ascii.eqb c sep then EmptyString :: split sep s'
      else match split sep s' with
           | [] => [String c EmptyString]
           | w :: ws => String c w :: ws
           end
  end.

(** [sep.join(parts)] *)
Fixpoint join (sep : Ascii.ascii) (parts : list string) : string :=
  match parts with
  | [] => EmptyString
  | [w] => w
  | w :: rest => w +:+ String sep (join sep rest)
  end.

(** [c in s] for a character [c] *)
Fixpoint has_char (c : Ascii.ascii) (s : string) : bool :=
  match s with
  | EmptyString => false
  | String c' s' => Ascii.eqb c' c || has_char c s'
  end.

(** A [dict] with [str] keys: the items in insertion order. *)
Definition dict (V : Type) : Type := list (string * V).

Section Dict.
Context {V : Type}.

(** [d[k]]; [None] stands for [KeyError]. *)
Fixpoint getitem (k : string) (d : dict V) : option V :=
  match d with
  | [] => None
  | (k', v) :: d' => if String.eqb k k' then Some v else getitem k d'
  end.

(** [k in d] *)
Definition contains (k : string) (d : dict V) : bool :=
  match getitem k d with Some _ => true | None => false end.

(** [d[k] = v]: an existing key keeps its position, a new one goes last. *)
Fixpoint setitem (k : string) (v : V) (d : dict V) : dict V :=
  match d with
  | [] => [(k, v)]
  | (k', v') :: d' =>
      if String.eqb k k' then (k, v) :: d' else (k', v') :: setitem k v d'
  end.

(** Iterating over a dict yields its keys. *)
Definition keys (d : dict V) : list string := d.*1.

(** Truth value of a dict: non-empty. *)
Definition truthy (d : dict V) : bool :=
  match d with [] => false | _ :: _ => true end.

End Dict.

(** [d.get(k)] on a dict of optional values: [None] both for a missing key
    and for a key bound to [None]. *)
Definition get {X : Type} (k : string) (d : dict (option X)) : option X :=
  match getitem k d with Some v => v | None => None end.

End Py.

(** ** What the plugin sees of mypy *)

(** The argument kinds of [mypy.nodes]; the plugin names [ARG_POS],
    [ARG_OPT] and [ARG_STAR2]. *)
Inductive ArgKind : Set :=
  ARG_POS | ARG_OPT | ARG_STAR | ARG_NAMED | ARG_STAR2 | ARG_NAMED_OPT.

Global Instance ArgKind_eq_dec : EqDecision ArgKind.
Proof. solve_decision. Defined.

(** [mypy.types.TypeOfAny]; the plugin only builds [implementation_artifact]. *)
Inductive TypeOfAny : Set :=
  | unannotated | explicit | from_unimported_type | from_omitted_generics
  | from_error | special_form | from_another_any | implementation_artifact
  | suggestion_engine.

(** The fields of a [CallableType] that the plugin reads. *)
Record CallableType (T : Type) : Type := mkCallableType {
  arg_types : list T;
  arg_kinds : list ArgKind;
  ret_type : T;
}.
Arguments mkCallableType {T} _ _ _.
Arguments arg_types {T} _.
Arguments arg_kinds {T} _.
Arguments ret_type {T} _.

(** The type facilities of mypy the plugin uses, as an interface.
    - [MypyType]: [mypy.types.Type];
    - [Expression]: [mypy.nodes.Expression] (the type of [ctx.reason]);
    - [AnyType]: the constructor [AnyType(type_of_any)];
    - [get_proper_type]: [mypy.types.get_proper_type];
    - [type_eq a b]: [a == b] on types (so [a != b] is its negation);
    - [isinstance_CallableType t]: [Some c] when [isinstance(t, CallableType)],
      with the fields of [t];
    - [isinstance_UnboundType t]: [Some n] when [isinstance(t, UnboundType)],
      with [n = t.name]. *)
Class Mypy : Type := {
  MypyType : Type;
  Expression : Type;
  AnyType : TypeOfAny → MypyType;
  get_proper_type : MypyType → MypyType;
  type_eq : MypyType → MypyType → bool;
  isinstance_CallableType : MypyType → option (CallableType MypyType);
  isinstance_UnboundType : MypyType → option string;
}.

Section Plugin.
Context `{Mypy}.

(** [mypy.nodes.Var]: a variable with its (optional) type. *)
Record Var : Type := mkVar {
  var_name : string;
  var_type : option MypyType;
  is_staticmethod : bool;
}.

(** [mypy.nodes.FuncItem]: a function definition with its (optional) type. *)
Record FuncItem : Type := mkFuncItem {
  is_static : bool;
  func_type : option MypyType;
}.

(** What the [node] of a symbol table entry can be, as far as the plugin
    tells the cases apart. *)
Inductive SymbolNode : Type :=
  | NFuncItem (f : FuncItem)
  | NVar (v : Var)
  | NOther.

Record SymbolTableNode : Type := mkSymbolTableNode {
  node : option SymbolNode;
}.

(** [mypy.nodes.TypeInfo], reduced to its symbol table [names]. *)
Record TypeInfo : Type := mkTypeInfo {
  names : gmap string SymbolTableNode;
}.

(** [mypy.nodes.Argument(variable, type_annotation, initializer, kind)] *)
Record Argument : Type := mkArgument {
  variable : Var;
  type_annotation : option MypyType;
  initializer : option Expression;
  kind : ArgKind;
}.

(** [mypy.plugin.ClassDefContext], reduced to what the plugin reads:
    [ctx.api.options.python_version], [ctx.api.named_type],
    [ctx.cls.info.mro] and [ctx.reason]. *)
Record ClassDefContext : Type := mkClassDefContext {
  python_version : Z * Z;
  named_type : string → MypyType;
  mro : list TypeInfo;
  reason : Expression;
}.

(** The calls a run makes to its collaborators. *)
Inductive Effect : Type :=
  | fail (msg : string) (context : Expression)
  | add_method_to_class (name : string) (args : list Argument)
      (return_type : MypyType).

(** [_MethodInfo = NamedTuple('_MethodInfo', [('is_static', bool), ('type', CallableType)])] *)
Record _MethodInfo : Type := mk_MethodInfo {
  mi_is_static : bool;
  mi_type : CallableType MypyType;
}.

(** The elements of the set [_ORDERING_METHODS], as the source lists them.
    The order in which Python iterates over a set of strings is not fixed:
    the functions below take it as the argument [order]. *)
Definition _ORDERING_METHODS : list string :=
  ["__lt__"; "__le__"; "__gt__"; "__ge__"].

(** *** [_find_other_type] *)

(** The [for] loop of [_find_other_type]: [cur_pos_arg] is the counter, the
    result is [other_arg] when the loop ends ([None] when it never
    assigned it). *)
Fixpoint find_other_loop (first_arg_pos cur_pos_arg : Z)
    (args : list (ArgKind * MypyType)) : option MypyType :=
  match args with
  | [] => None
  | (arg_kind, arg_type) :: rest =>
      if bool_decide (arg_kind = ARG_POS ∨ arg_kind = ARG_OPT) then
        if Z.eqb cur_pos_arg first_arg_pos then Some arg_type
        else find_other_loop first_arg_pos (cur_pos_arg + 1) rest
      else if negb (bool_decide (arg_kind = ARG_STAR2)) then Some arg_type
      else find_other_loop first_arg_pos cur_pos_arg rest
  end.

Definition _find_other_type (method : _MethodInfo) : MypyType :=
  let first_arg_pos := if mi_is_static method then 0 else 1 in
  let other_arg :=
    find_other_loop first_arg_pos 0
      (zip (arg_kinds (mi_type method)) (arg_types (mi_type method))) in
  match other_arg with
  | None => AnyType implementation_artifact
  | Some other_arg => other_arg
  end.

(** *** [_analyze_class] *)

(** The value stored for a name that a class declares (lines 92-103):
    a method info when the node is a [FuncItem] whose type is a
    [CallableType], or a [Var] whose proper type is one; [None] otherwise. *)
Definition method_info_of_node (symbol_node : option SymbolNode)
    : option _MethodInfo :=
  match symbol_node with
  | Some (NFuncItem f) =>
      match func_type f with
      | Some t =>
          match isinstance_CallableType t with
          | Some c => Some (mk_MethodInfo (is_static f) c)
          | None => None
          end
      | None => None
      end
  | Some (NVar v) =>
      match var_type v with
      | Some t =>
          match isinstance_CallableType (get_proper_type t) with
          | Some c => Some (mk_MethodInfo (is_staticmethod v) c)
          | None => None
          end
      | None => None
      end
  | _ => None
  end.

(** The body of the inner loop, for one class and one name. *)
Definition analyze_name (cls : TypeInfo)
    (comparison_methods : Py.dict (option _MethodInfo)) (name : string)
    : Py.dict (option _MethodInfo) :=
  match names cls !! name with
  | Some sym =>
      if negb (Py.contains name comparison_methods)
      then Py.setitem name (method_info_of_node (node sym)) comparison_methods
      else comparison_methods
  | None => comparison_methods
  end.

Definition _analyze_class (order : list string) (ctx : ClassDefContext)
    : Py.dict (option _MethodInfo) :=
  fold_left (λ comparison_methods cls,
               fold_left (analyze_name cls) order comparison_methods)
            (removelast (mro ctx)) [].

(** *** [functools_total_ordering_maker_callback] *)

Definition msg_python2 : string :=
  Py.dquote +:+ "functools.total_ordering" +:+ Py.dquote
    +:+ " is not supported in Python 2".

Definition msg_no_ordering : string :=
  "No ordering operation defined when using " +:+ Py.dquote
    +:+ "functools.total_ordering" +:+ Py.dquote +:+ ": < > <= >=".

(** [lambda k: (comparison_methods[k] is None, k)]; [k] ranges over the
    keys of the dict, so the subscript never raises. *)
Definition root_key (comparison_methods : Py.dict (option _MethodInfo))
    (k : string) : bool * string :=
  (match Py.getitem k comparison_methods with
   | Some None => true
   | _ => false
   end, k).

(** Line 40: the choice of the root. *)
Definition select_root (comparison_methods : Py.dict (option _MethodInfo))
    : option string :=
  Py.max Py.pair_gt (root_key comparison_methods) (Py.keys comparison_methods).

(** Lines 47-53: the return type of the added methods. *)
Definition resolve_ret_type (ctx : ClassDefContext) (root_method : _MethodInfo)
    : MypyType :=
  let bool_type := named_type ctx "__builtins__.bool" in
  if negb (type_eq (ret_type (mi_type root_method))
                   (named_type ctx "__builtins__.bool")) then
    let proper_ret_type := get_proper_type (ret_type (mi_type root_method)) in
    if negb (match isinstance_UnboundType proper_ret_type with
             | Some name =>
                 bool_decide (last (Py.split "."%char name) = Some "bool")
             | None => false
             end)
    then AnyType implementation_artifact
    else bool_type
  else bool_type.

(** Lines 54-59: one call of [add_method_to_class] for every name without
    an analysed method, in iteration order. *)
Definition add_missing (order : list string)
    (comparison_methods : Py.dict (option _MethodInfo))
    (other_type ret_type : MypyType) : list Effect :=
  flat_map (λ additional_op,
              match Py.get additional_op comparison_methods with
              | None =>
                  let args := [mkArgument (mkVar "other" (Some other_type) false)
                                          (Some other_type) None ARG_POS] in
                  [add_method_to_class additional_op args ret_type]
              | Some _ => []
              end) order.

(** The entry point.  The result is the list of calls made to the
    collaborators; [None] would be an uncaught exception. *)
Definition functools_total_ordering_maker_callback (order : list string)
    (ctx : ClassDefContext) (auto_attribs_default : bool)
    : option (list Effect) :=
  if Py.tuple_lt [(python_version ctx).1; (python_version ctx).2] [3] then
    Some [fail msg_python2 (reason ctx)]
  else
    let comparison_methods := _analyze_class order ctx in
    if negb (Py.truthy comparison_methods) then
      Some [fail msg_no_ordering (reason ctx)]
    else
      match select_root comparison_methods with
      | None => None
      | Some root =>
          match Py.getitem root comparison_methods with
          | None => None
          | Some None => Some []
          | Some (Some root_method) =>
              let other_type := _find_other_type root_method in
              let ret_type := resolve_ret_type ctx root_method in
              Some (add_missing order comparison_methods other_type ret_type)
          end
      end.

End Plugin.

(** ** Notions used to state the properties *)

Section Notions.
Context `{Mypy}.

(** What the collaborators make of the calls of a run: [on_fail] and [on_add]
    are the handlers of [ctx.api.fail] and [add_method_to_class], [w] is the
    state they act on (the class and the error log among it). *)
Definition run_effects {W : Type} (on_fail : string → Expression → W → W)
    (on_add : string → list Argument → MypyType → W → W)
    (effects : list Effect) (w : W) : W :=
  fold_left (λ w e,
               match e with
               | fail msg context => on_fail msg context w
               | add_method_to_class name args return_type =>
                   on_add name args return_type w
               end) effects w.

(** The analysis mode is supported: the gate of lines 28-30 lets the run pass. *)
Definition supported (ctx : ClassDefContext) : Prop :=
  3 ≤ (python_version ctx).1.

(** The ancestor chain that is scanned: the MRO without its last class
    ([object]). *)
Definition chain (ctx : ClassDefContext) : list TypeInfo :=
  removelast (mro ctx).

(** The symbol of [name] in the closest class of [classes] that declares it. *)
Fixpoint closest_declaration (classes : list TypeInfo) (name : string)
    : option SymbolTableNode :=
  match classes with
  | [] => None
  | cls :: rest =>
      match names cls !! name with
      | Some sym => Some sym
      | None => closest_declaration rest name
      end
  end.

(** An entry of the map is Known when it holds a method info, Unanalyzable
    when it holds [None]. *)
Definition Known (comparison_methods : Py.dict (option _MethodInfo))
    (name : string) : Prop :=
  ∃ method, Py.getitem name comparison_methods = Some (Some method).

Definition Unanalyzable (comparison_methods : Py.dict (option _MethodInfo))
    (name : string) : Prop :=
  Py.getitem name comparison_methods = Some None.

(** Required-positional and optional-positional parameters. *)
Definition positional (arg_kind : ArgKind) : Prop :=
  arg_kind = ARG_POS ∨ arg_kind = ARG_OPT.

(** The number of positional parameters in a parameter list. *)
Definition count_positional (params : list (ArgKind * MypyType)) : Z :=
  Z.of_nat (length (filter (λ p, positional p.1) params)).

(** The parameter list of a method: kinds paired with types. *)
Definition parameters (method : _MethodInfo) : list (ArgKind * MypyType) :=
  zip (arg_kinds (mi_type method)) (arg_types (mi_type method)).

(** The expected position of the operand: 0 for a static method, 1 after the
    receiver of an instance method. *)
Definition expected_position (method : _MethodInfo) : Z :=
  if mi_is_static method then 0 else 1.

(** The single parameter of an added method: [other], required-positional,
    of type [other_type]. *)
Definition other_argument (other_type : MypyType) : Argument :=
  mkArgument (mkVar "other" (Some other_type) false) (Some other_type) None ARG_POS.

(** The declared return type of the root is recognizably boolean: it is equal
    to the type [named_type] gives for [__builtins__.bool], or it is (after
    [get_proper_type]) an unbound type whose name has [bool] as its last
    dotted component ([name.split('.')[-1] == 'bool']). *)
Definition declared_boolean (ctx : ClassDefContext) (root_method : _MethodInfo)
    : Prop :=
  type_eq (ret_type (mi_type root_method)) (named_type ctx "__builtins__.bool")
    = true
  ∨ ∃ name,
      isinstance_UnboundType (get_proper_type (ret_type (mi_type root_method)))
        = Some name
      ∧ last (Py.split "."%char name) = Some "bool".

(** Modelled from the spec: the member-insertion collaborator
    ([add_method_to_class] of [mypy.plugins.common], which is not part of the
    plugin).  The spec has a synthesized method "inserted into a class's member
    table as if written by the class's author".  [after] is the context of a
    later run on the same class once the calls [effects] have been carried
    out: the class itself (the head of the MRO) declares every inserted name
    with an analysable callable signature, all its other members and all its
    ancestors are as before. *)
Definition members_inserted (effects : list Effect)
    (ctx after : ClassDefContext) : Prop :=
  python_version after = python_version ctx
  ∧ ∃ cls cls' bases,
      mro ctx = cls :: bases ∧ mro after = cls' :: bases
      ∧ ∀ name,
          ((∃ args return_type,
              add_method_to_class name args return_type ∈ effects)
           → ∃ sym method,
               names cls' !! name = Some sym
               ∧ method_info_of_node (node sym) = Some method)
          ∧ ((¬ ∃ args return_type,
                add_method_to_class name args return_type ∈ effects)
             → names cls' !! name = names cls !! name).

(** Some class of the chain declares one of the four operators with a
    declaration that is analysed to a method info (a valid callable
    signature). *)
Definition declares_analyzable_operator (ctx : ClassDefContext) : Prop :=
  ∃ cls name sym method,
    cls ∈ chain ctx ∧ name ∈ _ORDERING_METHODS
    ∧ names cls !! name = Some sym
    ∧ method_info_of_node (node sym) = Some method.

(** The run adds every operator that has no Known entry, all with one operand
    type and one return type. *)
Definition synthesizes_every_open_slot (order : list string)
    (ctx : ClassDefContext) : Prop :=
  ∃ effects other_type return_type,
    functools_total_ordering_maker_callback order ctx false = Some effects
    ∧ ∀ name,
        name ∈ _ORDERING_METHODS →
        ¬ Known (_analyze_class order ctx) name →
        add_method_to_class name [other_argument other_type] return_type
          ∈ effects.


(** A parameter list without its variadic-keyword parameters and with every
    optional-positional parameter made required. *)
Definition required_only (params : list (ArgKind * MypyType))
    : list (ArgKind * MypyType) :=
  (λ p, (if decide (p.1 = ARG_OPT) then ARG_POS else p.1, p.2))
    <$> filter (λ p, p.1 ≠ ARG_STAR2) params.

(** The entry of [name] is [None] (the test the key of line 40 makes). *)
Definition entry_is_None (comparison_methods : Py.dict (option _MethodInfo))
    (name : string) : bool :=
  (root_key comparison_methods name).1.

(** The first of [__lt__], [__le__], [__gt__], [__ge__], in this order, that
    passes a test. *)
Definition first_preferred (test : string → bool) : option string :=
  List.find test _ORDERING_METHODS.

End Notions.

(** ** A concrete instance of the interface, for running the plugin *)

Module Model.

#[local] Set Warnings "-register-all".

(** A small universe of types: [Any], instances of classes, unbound names,
    callables and type aliases (which [get_proper_type] expands). *)
Inductive ty : Type :=
  | Any (type_of_any : TypeOfAny)
  | Instance (fullname : string) (args : list ty)
  | Unbound (name : string)
  | Callable (c_arg_types : list ty) (c_arg_kinds : list ArgKind) (c_ret_type : ty)
  | Alias (target : ty).

Fixpoint proper (t : ty) : ty :=
  match t with
  | Alias target => proper target
  | _ => t
  end.

Fixpoint eqb (a b : ty) {struct a} : bool :=
  let fix eqbs (l1 l2 : list ty) {struct l1} : bool :=
    match l1, l2 with
    | [], [] => true
    | x :: l1', y :: l2' => eqb x y && eqbs l1' l2'
    | _, _ => false
    end in
  match a, b with
  | Any _, Any _ => true
  | Instance n1 l1, Instance n2 l2 => String.eqb n1 n2 && eqbs l1 l2
  | Unbound n1, Unbound n2 => String.eqb n1 n2
  | Callable ts1 ks1 r1, Callable ts2 ks2 r2 =>
      eqbs ts1 ts2 && bool_decide (ks1 = ks2) && eqb r1 r2
  | Alias t1, Alias t2 => eqb t1 t2
  | _, _ => false
  end.

Definition as_callable (t : ty) : option (CallableType ty) :=
  match t with
  | Callable ts ks r => Some (mkCallableType ts ks r)
  | _ => None
  end.

Definition as_unbound (t : ty) : option string :=
  match t with
  | Unbound n => Some n
  | _ => None
  end.

#[global] Instance mypy : Mypy := {|
  MypyType := ty;
  Expression := string;
  AnyType := Any;
  get_proper_type := proper;
  type_eq := eqb;
  isinstance_CallableType := as_callable;
  isinstance_UnboundType := as_unbound;
|}.

(** [ctx.api.named_type]: the instance type of a class, by its full name. *)
Definition api_named_type (qualified_name : string) : ty :=
  Instance qualified_name [].

Definition bool_type : ty := api_named_type "__builtins__.bool".
Definition int_type : ty := Instance "builtins.int" [].
Definition self_type : ty := Instance "m.C" [].

(** [def __lt__(self, other: int) -> bool: ...] *)
Definition def_lt : SymbolTableNode :=
  mkSymbolTableNode
    (Some (NFuncItem (mkFuncItem false
       (Some (Callable [self_type; int_type] [ARG_POS; ARG_POS] bool_type))))).

(** What the scan records for [def_lt]. *)
Definition method_lt : _MethodInfo :=
  mk_MethodInfo false
    (mkCallableType [self_type; int_type] [ARG_POS; ARG_POS] bool_type).

(** [def __ge__(self, other: str) -> bool: ...] *)
Definition def_ge : SymbolTableNode :=
  mkSymbolTableNode
    (Some (NFuncItem (mkFuncItem false
       (Some (Callable [self_type; Instance "builtins.str" []]
                       [ARG_POS; ARG_POS] bool_type))))).

(** [__le__ = 5]: a variable whose type is not callable. *)
Definition var_int (name : string) : SymbolTableNode :=
  mkSymbolTableNode (Some (NVar (mkVar name (Some int_type) false))).

(** A method that [add_method_to_class] has added: [(self, other: T) -> R]. *)
Definition added (other_type return_type : ty) : SymbolTableNode :=
  mkSymbolTableNode
    (Some (NFuncItem (mkFuncItem false
       (Some (Callable [self_type; other_type] [ARG_POS; ARG_POS] return_type))))).

Definition class_of (members : list (string * SymbolTableNode)) : TypeInfo :=
  mkTypeInfo (list_to_map members).

(** [object]; its own members are never looked at. *)
Definition object_info : TypeInfo := class_of [("__lt__", var_int "__lt__")].

Definition context (version : Z * Z) (classes : list TypeInfo)
    : ClassDefContext :=
  mkClassDefContext version api_named_type (classes ++ [object_info])
    "functools.total_ordering".

(** A class that defines [__lt__] only. *)
Definition ctx_lt : ClassDefContext :=
  context (3, 8) [class_of [("__lt__", def_lt)]].

(** The same class once the three missing methods have been added. *)
Definition ctx_lt_completed : ClassDefContext :=
  context (3, 8)
    [class_of [("__lt__", def_lt); ("__le__", added int_type bool_type);
               ("__gt__", added int_type bool_type);
               ("__ge__", added int_type bool_type)]].

(** A class that defines [__lt__] and binds [__le__] to an integer. *)
Definition ctx_lt_and_unanalyzable : ClassDefContext :=
  context (3, 8) [class_of [("__lt__", def_lt); ("__le__", var_int "__le__")]].

(** A class that binds [__lt__] to an integer, shadowing the [__lt__] its base
    class defines; the base also defines [__ge__]. *)
Definition ctx_shadowing : ClassDefContext :=
  context (3, 8) [class_of [("__lt__", var_int "__lt__")];
                  class_of [("__lt__", def_lt); ("__ge__", def_ge)]].

(** A class that binds [__lt__] to an integer, shadowing the [__lt__] of its
    base class, and nothing else. *)
Definition ctx_shadowed_only : ClassDefContext :=
  context (3, 8) [class_of [("__lt__", var_int "__lt__")];
                  class_of [("__lt__", def_lt)]].

(** A class whose only ordering method is
    [def __lt__(self, other: int) -> R: ...], for a return annotation [R]. *)
Definition method_returning (return_type : ty) : _MethodInfo :=
  mk_MethodInfo false
    (mkCallableType [self_type; int_type] [ARG_POS; ARG_POS] return_type).

Definition ctx_returning (return_type : ty) : ClassDefContext :=
  context (3, 8) [class_of [("__lt__", added int_type return_type)]].

(** A class without ordering methods: its only member is [__eq__]. *)
Definition ctx_none : ClassDefContext :=
  context (3, 8) [class_of [("__eq__", added self_type bool_type)]].

(** A class that defines [__lt__], checked in Python 2 mode. *)
Definition ctx_python2 : ClassDefContext :=
  context (2, 7) [class_of [("__lt__", def_lt)]].

(** [def __lt__(self, other: int = ..., **kwargs: str) -> bool: ...] *)
Definition method_with_default_and_kwargs : _MethodInfo :=
  mk_MethodInfo false
    (mkCallableType [self_type; int_type; Instance "builtins.str" []]
                    [ARG_POS; ARG_OPT; ARG_STAR2] bool_type).


(** A class that binds [__ge__] to an integer; its base defines [__lt__]. *)
Definition ctx_unanalyzable_ge : ClassDefContext :=
  context (3, 8) [class_of [("__ge__", var_int "__ge__")];
                  class_of [("__lt__", def_lt)]].

(** A class that defines [__gt__] and [__le__] (with operand [str]). *)
Definition ctx_gt_le : ClassDefContext :=
  context (3, 8) [class_of [("__gt__", def_lt); ("__le__", def_ge)]].

(** One order in which the set [_ORDERING_METHODS] may be iterated. *)
Definition some_order : list string := ["__ge__"; "__lt__"; "__gt__"; "__le__"].

End Model.

(** Closed decidable goals (membership in a concrete list, a concrete
    permutation) are settled by evaluating their decision procedure. *)
Ltac by_evaluation := apply (bool_decide_unpack _); vm_compute; exact I.

(** * Properties *)

(** ** Python operations *)

Lemma tuple_lt_version (major minor : Z) :
  Py.tuple_lt [major; minor] [3] = (major <? 3).
Proof.
  simpl. destruct (Z.eqb_spec major 3) as [-> | _]; reflexivity.
Qed.

Lemma split_nonempty (sep : Ascii.ascii) (s : string) : Py.split sep s ≠ [].
Proof.
  destruct s as [| c s]; simpl; [discriminate |].
  destruct (Ascii.eqb c sep); [discriminate |].
  destruct (Py.split sep s); discriminate.
Qed.

Lemma join_split (sep : Ascii.ascii) (s : string) :
  Py.join sep (Py.split sep s) = s.
Proof.
  induction s as [| c s IH]; simpl; [reflexivity |].
  destruct (Ascii.eqb_spec c sep) as [-> | Hne].
  - pose proof (split_nonempty sep s) as Hs.
    destruct (Py.split sep s) as [| w ws]; [contradiction |].
    change (Py.join sep ("" :: w :: ws))
      with ("" +:+ String sep (Py.join sep (w :: ws))).
    rewrite IH. reflexivity.
  - pose proof (split_nonempty sep s) as Hs.
    destruct (Py.split sep s) as [| w ws]; [contradiction |].
    destruct ws as [| w' ws]; simpl in *; rewrite <- IH; reflexivity.
Qed.

Lemma split_free (sep : Ascii.ascii) (w : string) :
  Py.has_char sep w = false → Py.split sep w = [w].
Proof.
  induction w as [| c w IH]; simpl; [reflexivity |].
  intros [Hc Hw]%orb_false_iff. rewrite Hc, (IH Hw). reflexivity.
Qed.

Lemma split_parts_free (sep : Ascii.ascii) (s w : string) :
  w ∈ Py.split sep s → Py.has_char sep w = false.
Proof.
  revert w. induction s as [| c s IH]; simpl; intros w Hw.
  - apply list_elem_of_singleton in Hw as ->. reflexivity.
  - destruct (Ascii.eqb c sep) eqn:Hc.
    + apply elem_of_cons in Hw as [-> | Hw]; [reflexivity | apply IH; assumption].
    + destruct (Py.split sep s) as [| w0 ws].
      * apply list_elem_of_singleton in Hw as ->. simpl. rewrite Hc. reflexivity.
      * apply elem_of_cons in Hw as [-> | Hw].
        -- simpl. rewrite Hc. apply IH. apply elem_of_cons. left. reflexivity.
        -- apply IH. apply elem_of_cons. right. assumption.
Qed.

Lemma split_app (sep : Ascii.ascii) (p q : string) :
  Py.split sep (p +:+ String sep q) = Py.split sep p ++ Py.split sep q.
Proof.
  induction p as [| c p IH]; simpl.
  - rewrite Ascii.eqb_refl. reflexivity.
  - rewrite IH. destruct (Ascii.eqb c sep); [reflexivity |].
    pose proof (split_nonempty sep p) as Hp.
    destruct (Py.split sep p); [contradiction | reflexivity].
Qed.

Lemma append_assoc (a b c : string) : (a +:+ b) +:+ c = a +:+ (b +:+ c).
Proof.
  induction a as [| x a IH]; [reflexivity |].
  change (String x ((a +:+ b) +:+ c) = String x (a +:+ (b +:+ c))).
  rewrite IH. reflexivity.
Qed.

Lemma join_snoc (sep : Ascii.ascii) (parts : list string) (w : string) :
  parts ≠ [] →
  Py.join sep (parts ++ [w]) = Py.join sep parts +:+ String sep w.
Proof.
  induction parts as [| x parts IH]; [contradiction |]. intros _.
  destruct parts as [| y parts]; [reflexivity |].
  change (Py.join sep ((x :: y :: parts) ++ [w]))
    with (x +:+ String sep (Py.join sep ((y :: parts) ++ [w]))).
  rewrite IH by discriminate.
  change (Py.join sep (x :: y :: parts))
    with (x +:+ String sep (Py.join sep (y :: parts))).
  rewrite append_assoc. reflexivity.
Qed.

(** The last component of a dotted name: the name itself when it has no dot,
    what follows its last dot otherwise. *)
Lemma last_split (sep : Ascii.ascii) (s w : string) :
  last (Py.split sep s) = Some w
  ↔ Py.has_char sep w = false
    ∧ (s = w ∨ ∃ p, s = p +:+ String sep w).
Proof.
  split.
  - intros Hlast. split.
    + apply (split_parts_free sep s). apply last_Some_elem_of. assumption.
    + apply last_Some in Hlast as [parts Hparts].
      pose proof (join_split sep s) as Hjoin. rewrite Hparts in Hjoin.
      destruct parts as [| x parts]; [left; symmetry; exact Hjoin |].
      right. exists (Py.join sep (x :: parts)).
      rewrite <- Hjoin. apply join_snoc. discriminate.
  - intros [Hfree [-> | [p ->]]].
    + rewrite (split_free sep w Hfree). reflexivity.
    + rewrite split_app, (split_free sep w Hfree). apply last_snoc.
Qed.

(** The test of line 52, [name.split('.')[-1] == 'bool'], holds for the name
    [bool] and for the names that end in [.bool], and for no other. *)
Lemma simple_name_bool (name : string) :
  last (Py.split "."%char name) = Some "bool"
  ↔ name = "bool" ∨ ∃ prefix, name = prefix +:+ ".bool".
Proof.
  rewrite last_split. split.
  - intros [_ H]. exact H.
  - intros H. split; [reflexivity | exact H].
Qed.

Section DictFacts.
Context {V : Type}.
Implicit Types (d : Py.dict V) (k : string) (v : V).

Lemma getitem_setitem k' k v d :
  Py.getitem k' (Py.setitem k v d)
  = if decide (k' = k) then Some v else Py.getitem k' d.
Proof.
  induction d as [| [k0 v0] d IH]; simpl.
  - destruct (String.eqb_spec k' k), (decide (k' = k)); congruence.
  - destruct (String.eqb_spec k k0) as [-> | Hne]; simpl.
    + destruct (String.eqb_spec k' k0), (decide (k' = k0)); congruence.
    + rewrite IH.
      destruct (String.eqb_spec k' k0) as [-> | _]; [| reflexivity].
      destruct (decide (k0 = k)); congruence.
Qed.

Lemma getitem_Some_elem_of k d :
  is_Some (Py.getitem k d) ↔ k ∈ Py.keys d.
Proof.
  unfold Py.keys. induction d as [| [k0 v0] d IH]; simpl.
  - split; [intros [? ?]; discriminate | intros ?%elem_of_nil; contradiction].
  - rewrite elem_of_cons, <- IH.
    destruct (String.eqb_spec k k0) as [-> | Hne].
    + split; eauto.
    + split; [eauto | intros [? | ?]; [contradiction | assumption]].
Qed.

Lemma contains_true k d : Py.contains k d = true ↔ k ∈ Py.keys d.
Proof.
  rewrite <- getitem_Some_elem_of. unfold Py.contains.
  destruct (Py.getitem k d); split; eauto; try discriminate.
  intros [? ?]; discriminate.
Qed.

Lemma keys_setitem k v d :
  Py.keys (Py.setitem k v d)
  = if Py.contains k d then Py.keys d else Py.keys d ++ [k].
Proof.
  unfold Py.contains, Py.keys.
  induction d as [| [k0 v0] d IH]; csimpl; [reflexivity |].
  destruct (String.eqb_spec k k0) as [-> | _]; csimpl; [reflexivity |].
  rewrite IH. destruct (Py.getitem k d); reflexivity.
Qed.

Lemma NoDup_keys_setitem k v d :
  NoDup (Py.keys d) → NoDup (Py.keys (Py.setitem k v d)).
Proof.
  intros Hd. rewrite keys_setitem.
  destruct (Py.contains k d) eqn:Hk; [assumption |].
  apply NoDup_app. repeat split; [assumption | | apply NoDup_singleton].
  intros x Hx ->%list_elem_of_singleton.
  apply contains_true in Hx. congruence.
Qed.

End DictFacts.

(** ** The order on the keys of [max] *)

Lemma ltb_leb (a b : string) : String.ltb a b = negb (String.leb b a).
Proof.
  unfold String.ltb, String.leb. rewrite (String.compare_antisym a b).
  destruct (String.compare b a); reflexivity.
Qed.

Lemma pair_gt_false (x y : bool * string) :
  Py.pair_gt x y = false
  ↔ (x.1 = false ∧ y.1 = true) ∨ (x.1 = y.1 ∧ String.leb x.2 y.2 = true).
Proof.
  destruct x as [b1 k1], y as [b2 k2]; unfold Py.pair_gt; simpl.
  destruct b1, b2; simpl;
    try (destruct (String.eqb_spec k1 k2) as [-> | Hne];
         [ split; [intros _; right; split; [reflexivity |] | reflexivity];
           destruct (String.leb_total k2 k2); assumption
         | rewrite ltb_leb, negb_false_iff; split;
           [intros ?; right; split; [reflexivity | assumption]
           | intros [[? ?] | [_ ?]]; [discriminate | assumption]] ]).
  - split; [discriminate | intros [[? ?] | [? _]]; discriminate].
  - split; [intros _; left; split; reflexivity | reflexivity].
Qed.

Lemma pair_gt_asym (x y : bool * string) :
  Py.pair_gt x y = true → Py.pair_gt y x = false.
Proof.
  intros Hxy. apply pair_gt_false.
  destruct (Py.pair_gt x y) eqn:E; [clear Hxy | discriminate].
  apply not_false_iff_true in E. rewrite pair_gt_false in E.
  destruct x as [b1 k1], y as [b2 k2]; simpl in *.
  destruct b1, b2; simpl in *; try (left; split; reflexivity);
    try (right; split; [reflexivity |];
         destruct (String.leb_total k1 k2) as [Hle | Hle]; [| assumption];
         exfalso; apply E; right; split; [reflexivity | assumption]).
  exfalso; apply E; left; split; reflexivity.
Qed.

Lemma pair_gt_trans (x y z : bool * string) :
  Py.pair_gt x y = false → Py.pair_gt y z = false → Py.pair_gt x z = false.
Proof.
  rewrite !pair_gt_false.
  intros [[Hx Hy] | [Hxy Hle1]] [[Hy' Hz] | [Hyz Hle2]].
  - congruence.
  - left. split; congruence.
  - left. split; congruence.
  - right. split; [congruence |].
    assert (Hle : String.le x.2 z.2); [| exact (Is_true_true_1 _ Hle)].
    transitivity y.2; apply Is_true_true_2; assumption.
Qed.

(** ** [max] returns an item of the list whose key no other key exceeds *)

Section MaxFacts.
Context {A K : Type} (gt : K → K → bool) (key : A → K).
Hypothesis gt_asym : ∀ x y, gt x y = true → gt y x = false.
Hypothesis gt_trans : ∀ x y z, gt x y = false → gt y z = false → gt x z = false.

Lemma max_fold_spec (l : list A) (x : A) :
  let r := fold_left (λ best y, if gt (key y) (key best) then y else best) l x in
  r ∈ x :: l ∧ ∀ y, y ∈ x :: l → gt (key y) (key r) = false.
Proof.
  revert x. induction l as [| y l IH]; intros x; simpl.
  - split; [apply list_elem_of_singleton; reflexivity |].
    intros y ->%list_elem_of_singleton.
    destruct (gt (key x) (key x)) eqn:E; [| reflexivity].
    rewrite (gt_asym _ _ E) in E. discriminate.
  - destruct (IH (if gt (key y) (key x) then y else x)) as [Hin Hmax].
    split.
    + apply elem_of_cons in Hin as [Hin | Hin].
      * rewrite Hin. destruct (gt (key y) (key x)).
        -- apply elem_of_cons; right. apply elem_of_cons; left; reflexivity.
        -- apply elem_of_cons; left; reflexivity.
      * apply elem_of_cons; right. apply elem_of_cons; right; assumption.
    + intros z Hz.
      destruct (gt (key y) (key x)) eqn:E.
      * assert (Hy := Hmax y ltac:(apply elem_of_cons; left; reflexivity)).
        apply elem_of_cons in Hz as [-> | Hz].
        -- eapply gt_trans; [apply gt_asym; eassumption | assumption].
        -- apply Hmax. assumption.
      * assert (Hx := Hmax x ltac:(apply elem_of_cons; left; reflexivity)).
        apply elem_of_cons in Hz as [-> | Hz]; [assumption |].
        apply elem_of_cons in Hz as [-> | Hz].
        -- eapply gt_trans; eassumption.
        -- apply Hmax. apply elem_of_cons; right; assumption.
Qed.

Lemma max_None (l : list A) : Py.max gt key l = None ↔ l = [].
Proof. destruct l; simpl; split; congruence. Qed.

Lemma max_Some (l : list A) (r : A) :
  Py.max gt key l = Some r →
  r ∈ l ∧ ∀ y, y ∈ l → gt (key y) (key r) = false.
Proof.
  destruct l as [| x l]; simpl; [discriminate |].
  intros [= <-]. apply max_fold_spec.
Qed.

End MaxFacts.

(** ** The choice of the root *)

Section RootFacts.
Context `{Mypy}.
Implicit Types (d : Py.dict (option _MethodInfo)) (k root : string).

Lemma select_root_None d : select_root d = None ↔ d = [].
Proof.
  unfold select_root. rewrite max_None. unfold Py.keys.
  destruct d; simpl; split; congruence.
Qed.

Lemma select_root_Some d root :
  select_root d = Some root →
  root ∈ Py.keys d
  ∧ ∀ k, k ∈ Py.keys d → Py.pair_gt (root_key d k) (root_key d root) = false.
Proof.
  intros Hroot.
  apply (max_Some _ _ pair_gt_asym pair_gt_trans) in Hroot. exact Hroot.
Qed.

(** The key of an Unanalyzable entry exceeds the key of a Known one. *)
Lemma root_key_unanalyzable_gt d k root :
  Unanalyzable d k → Known d root →
  Py.pair_gt (root_key d k) (root_key d root) = true.
Proof.
  unfold Unanalyzable, Known, root_key. intros -> [method ->]. reflexivity.
Qed.

(** What line 40 does: when the root is Known, no entry of the map is
    Unanalyzable. *)
Lemma root_known_all_known d root :
  select_root d = Some root → Known d root →
  ∀ k, k ∈ Py.keys d → Known d k.
Proof.
  intros Hroot Hknown k Hk.
  destruct (select_root_Some _ _ Hroot) as [_ Hmax].
  specialize (Hmax k Hk).
  apply getitem_Some_elem_of in Hk as [[method |] Hget].
  - exists method. exact Hget.
  - rewrite (root_key_unanalyzable_gt d k root Hget Hknown) in Hmax.
    discriminate.
Qed.

(** Among entries of equal analyzability the greatest name wins, and
    [__lt__ > __le__ > __gt__ > __ge__]. *)
Lemma root_greatest_name d root k :
  select_root d = Some root → k ∈ Py.keys d →
  (Unanalyzable d k ↔ Unanalyzable d root) →
  String.leb k root = true.
Proof.
  intros Hroot Hk Hsame.
  destruct (select_root_Some _ _ Hroot) as [_ Hmax].
  specialize (Hmax k Hk). apply pair_gt_false in Hmax.
  destruct Hmax as [[Hk1 Hr1] | [_ Hle]]; [| exact Hle].
  exfalso. unfold root_key, Unanalyzable in *. simpl in *.
  destruct (Py.getitem root d) as [[m |] |]; try discriminate.
  destruct Hsame as [_ Hsame]. rewrite (Hsame eq_refl) in Hk1. discriminate.
Qed.

Lemma ordering_names_ranked :
  String.ltb "__le__" "__lt__" = true
  ∧ String.ltb "__gt__" "__le__" = true
  ∧ String.ltb "__ge__" "__gt__" = true.
Proof. repeat split. Qed.

End RootFacts.

(** ** The scan of the ancestor chain *)

Section AnalyzeFacts.
Context `{Mypy}.
Implicit Types (d : Py.dict (option _MethodInfo)) (cls : TypeInfo).

Lemma analyze_name_getitem cls d n name :
  Py.getitem name (analyze_name cls d n)
  = match Py.getitem name d with
    | Some v => Some v
    | None =>
        if decide (name = n)
        then (λ sym, method_info_of_node (node sym)) <$> names cls !! n
        else None
    end.
Proof.
  unfold analyze_name. destruct (names cls !! n) as [sym |] eqn:E.
  - destruct (Py.contains n d) eqn:C; simpl.
    + destruct (Py.getitem name d) eqn:G; [reflexivity |].
      destruct (decide (name = n)) as [-> | _]; [| reflexivity].
      unfold Py.contains in C. rewrite G in C. discriminate.
    + rewrite getitem_setitem. unfold Py.contains in C.
      destruct (decide (name = n)) as [-> | _].
      * destruct (Py.getitem n d); [discriminate | reflexivity].
      * destruct (Py.getitem name d); reflexivity.
  - destruct (Py.getitem name d); [reflexivity |].
    destruct (decide (name = n)); reflexivity.
Qed.

Lemma analyze_names_getitem cls order d name :
  Py.getitem name (fold_left (analyze_name cls) order d)
  = match Py.getitem name d with
    | Some v => Some v
    | None =>
        if decide (name ∈ order)
        then (λ sym, method_info_of_node (node sym)) <$> names cls !! name
        else None
    end.
Proof.
  revert d. induction order as [| n order IH]; intros d; simpl.
  - destruct (Py.getitem name d); [reflexivity |].
    destruct (decide (name ∈ [])) as [Hin | _]; [| reflexivity].
    apply elem_of_nil in Hin. contradiction.
  - rewrite IH, analyze_name_getitem.
    destruct (Py.getitem name d); [reflexivity |].
    destruct (decide (name = n)) as [-> | Hne].
    + destruct (decide (n ∈ n :: order)) as [_ | Hnot];
        [| exfalso; apply Hnot, elem_of_cons; left; reflexivity].
      destruct (names cls !! n); simpl; [reflexivity |].
      destruct (decide (n ∈ order)); reflexivity.
    + destruct (decide (name ∈ order)) as [Hin | Hnot],
               (decide (name ∈ n :: order)) as [Hin' | Hnot'];
        try reflexivity.
      * exfalso. apply Hnot', elem_of_cons. right. assumption.
      * exfalso. apply elem_of_cons in Hin' as [? | ?]; contradiction.
Qed.

Lemma analyze_classes_getitem classes order d name :
  Py.getitem name
    (fold_left (λ comparison_methods cls,
                  fold_left (analyze_name cls) order comparison_methods)
               classes d)
  = match Py.getitem name d with
    | Some v => Some v
    | None =>
        if decide (name ∈ order)
        then (λ sym, method_info_of_node (node sym))
               <$> closest_declaration classes name
        else None
    end.
Proof.
  revert d. induction classes as [| cls classes IH]; intros d; simpl.
  - destruct (Py.getitem name d); [reflexivity |].
    destruct (decide (name ∈ order)); reflexivity.
  - rewrite IH, analyze_names_getitem.
    destruct (Py.getitem name d); [reflexivity |].
    destruct (decide (name ∈ order)); [| reflexivity].
    destruct (names cls !! name); reflexivity.
Qed.

Lemma analyze_class_getitem order ctx name :
  Py.getitem name (_analyze_class order ctx)
  = if decide (name ∈ order)
    then (λ sym, method_info_of_node (node sym))
           <$> closest_declaration (chain ctx) name
    else None.
Proof. unfold _analyze_class. rewrite analyze_classes_getitem. reflexivity. Qed.

Lemma analyze_name_NoDup cls d n :
  NoDup (Py.keys d) → NoDup (Py.keys (analyze_name cls d n)).
Proof.
  intros Hd. unfold analyze_name.
  destruct (names cls !! n); [| assumption].
  destruct (negb (Py.contains n d)); [| assumption].
  apply NoDup_keys_setitem. assumption.
Qed.

Lemma analyze_class_NoDup order ctx : NoDup (Py.keys (_analyze_class order ctx)).
Proof.
  unfold _analyze_class.
  assert (Hnil : NoDup (Py.keys ([] : Py.dict (option _MethodInfo))))
    by apply NoDup_nil_2.
  revert Hnil. generalize ([] : Py.dict (option _MethodInfo)).
  induction (removelast (mro ctx)) as [| cls classes IH]; intros d Hd; simpl;
    [assumption |].
  apply IH. clear IH. revert d Hd.
  induction order as [| n order IH]; intros d Hd; simpl; [assumption |].
  apply IH, analyze_name_NoDup. assumption.
Qed.

Lemma closest_declaration_found (pre post : list TypeInfo) cls name sym :
  (∀ c, c ∈ pre → names c !! name = None) →
  names cls !! name = Some sym →
  closest_declaration (pre ++ cls :: post) name = Some sym.
Proof.
  intros Hpre Hcls. induction pre as [| c pre IH]; simpl.
  - rewrite Hcls. reflexivity.
  - rewrite (Hpre c) by (apply elem_of_cons; left; reflexivity).
    apply IH. intros c' Hc'. apply Hpre, elem_of_cons. right. assumption.
Qed.

Lemma closest_declaration_none (classes : list TypeInfo) name :
  (∀ c, c ∈ classes → names c !! name = None) →
  closest_declaration classes name = None.
Proof.
  intros Hnone. induction classes as [| c classes IH]; simpl; [reflexivity |].
  rewrite (Hnone c) by (apply elem_of_cons; left; reflexivity).
  apply IH. intros c' Hc'. apply Hnone, elem_of_cons. right. assumption.
Qed.

Lemma closest_declaration_Some (classes : list TypeInfo) name sym :
  closest_declaration classes name = Some sym →
  ∃ pre cls post,
    classes = pre ++ cls :: post
    ∧ (∀ c, c ∈ pre → names c !! name = None)
    ∧ names cls !! name = Some sym.
Proof.
  induction classes as [| c classes IH]; simpl; [discriminate |].
  destruct (names c !! name) as [sym' |] eqn:E.
  - intros [= <-]. exists [], c, classes. repeat split; [| assumption].
    intros c' Hc'. apply elem_of_nil in Hc'. contradiction.
  - intros Hrest. destruct (IH Hrest) as (pre & cls & post & -> & Hpre & Hcls).
    exists (c :: pre), cls, post. repeat split; [| assumption].
    intros c' [-> | Hc']%elem_of_cons; [assumption | apply Hpre; assumption].
Qed.

End AnalyzeFacts.

(** ** The walk over the parameters *)

Section FindOtherFacts.
Context `{Mypy}.
Implicit Types (params pre post : list (ArgKind * MypyType)).

Lemma count_positional_nonneg params : 0 ≤ count_positional params.
Proof. unfold count_positional. lia. Qed.

Lemma count_positional_cons (p : ArgKind * MypyType) params :
  count_positional (p :: params)
  = if bool_decide (p.1 = ARG_POS ∨ p.1 = ARG_OPT)
    then 1 + count_positional params else count_positional params.
Proof.
  unfold count_positional. case_bool_decide as Hp.
  - rewrite filter_cons_True by exact Hp. simpl length. lia.
  - rewrite filter_cons_False by exact Hp. reflexivity.
Qed.

(** Positional and variadic-keyword parameters before the expected position
    are passed over; the counter counts the positional ones. *)
Lemma find_other_loop_skip (first cur : Z) pre post :
  (∀ p, p ∈ pre → positional p.1 ∨ p.1 = ARG_STAR2) →
  cur + count_positional pre ≤ first →
  find_other_loop first cur (pre ++ post)
  = find_other_loop first (cur + count_positional pre) post.
Proof.
  revert cur. induction pre as [| [k t] pre IH]; intros cur Hpre Hle; simpl.
  - unfold count_positional. simpl. rewrite Z.add_0_r. reflexivity.
  - assert (Hpre' : ∀ p, p ∈ pre → positional p.1 ∨ p.1 = ARG_STAR2).
    { intros p Hp. apply Hpre, elem_of_cons. right. assumption. }
    pose proof (count_positional_nonneg pre) as Hnn.
    rewrite count_positional_cons in Hle |- *. simpl in Hle |- *.
    case_bool_decide as Hk.
    + destruct (Z.eqb_spec cur first) as [-> | _]; [lia |].
      rewrite IH by (assumption || lia). f_equal. lia.
    + destruct (Hpre (k, t)) as [Hpos | Hstar];
        [apply elem_of_cons; left; reflexivity | contradiction |].
      simpl in Hstar. subst k. simpl. apply IH; assumption.
Qed.

End FindOtherFacts.

(** * The properties of the plugin *)

(** C3 (shadowing invariant of the chain scan).  The map that
    [_analyze_class] returns has at most one entry per name.  For each of the
    four operator names, the entry comes from the closest class of the chain
    (the class itself first, [object] left out) that declares the name: it is
    what that class's declaration is analysed to (a method info, or [None]),
    whatever the classes after it declare.  A name that no class of the chain
    declares has no entry, and no other name ever has one. *)
Theorem analyze_class_shadowing `{Mypy} (order : list string)
    (ctx : ClassDefContext) :
  order ≡ₚ _ORDERING_METHODS →
  NoDup (Py.keys (_analyze_class order ctx))
  ∧ (∀ name pre cls post sym,
       name ∈ _ORDERING_METHODS →
       chain ctx = pre ++ cls :: post →
       (∀ c, c ∈ pre → names c !! name = None) →
       names cls !! name = Some sym →
       Py.getitem name (_analyze_class order ctx)
       = Some (method_info_of_node (node sym)))
  ∧ (∀ name,
       (∀ c, c ∈ chain ctx → names c !! name = None) →
       Py.getitem name (_analyze_class order ctx) = None)
  ∧ (∀ name,
       name ∉ _ORDERING_METHODS →
       Py.getitem name (_analyze_class order ctx) = None).
Proof.
  intros Hperm. split; [apply analyze_class_NoDup |].
  split; [| split].
  - intros name pre cls post sym Hname Hchain Hpre Hcls.
    rewrite analyze_class_getitem, Hchain.
    destruct (decide (name ∈ order)) as [_ | Hnot].
    + rewrite (closest_declaration_found pre post cls name sym Hpre Hcls).
      reflexivity.
    + exfalso. apply Hnot. rewrite Hperm. assumption.
  - intros name Hnone. rewrite analyze_class_getitem.
    rewrite (closest_declaration_none _ _ Hnone).
    destruct (decide (name ∈ order)); reflexivity.
  - intros name Hname. rewrite analyze_class_getitem.
    destruct (decide (name ∈ order)) as [Hin | _]; [| reflexivity].
    exfalso. apply Hname. rewrite <- Hperm. assumption.
Qed.

(** On a class that binds [__lt__] to an integer and whose base class defines
    [__lt__] and [__ge__]: the entry of [__lt__] is the class's own ([None]),
    the entry of [__ge__] is the base's. *)
Lemma analyze_class_shadowing_witness :
  Model.some_order ≡ₚ _ORDERING_METHODS
  ∧ Py.getitem "__lt__" (_analyze_class Model.some_order Model.ctx_shadowing)
    = Some None
  ∧ Py.getitem "__le__" (_analyze_class Model.some_order Model.ctx_shadowing)
    = None.
Proof.
  assert (Hperm : Model.some_order ≡ₚ _ORDERING_METHODS).
  { by_evaluation. }
  destruct (analyze_class_shadowing Model.some_order Model.ctx_shadowing Hperm)
    as (_ & Hclosest & Hnone & _).
  split; [exact Hperm |]. split.
  - apply (Hclosest "__lt__" []
             (Model.class_of [("__lt__", Model.var_int "__lt__")])
             [Model.class_of [("__lt__", Model.def_lt); ("__ge__", Model.def_ge)]]
             (Model.var_int "__lt__")).
    + by_evaluation.
    + reflexivity.
    + intros c Hc. apply elem_of_nil in Hc. contradiction.
    + vm_compute. reflexivity.
  - apply Hnone. intros c Hc.
    apply elem_of_cons in Hc as [-> | Hc]; [vm_compute; reflexivity |].
    apply list_elem_of_singleton in Hc as ->. vm_compute. reflexivity.
Defined.

(** C4 (operand-type extraction).  The expected position is 0 for a static
    root and 1 for an instance method; the counter counts the
    required-positional and optional-positional parameters, and
    variadic-keyword parameters are passed over.  The result is the type of
    the positional parameter found when the counter equals the expected
    position, or of a parameter of another kind met no later than that; it is
    [AnyType(TypeOfAny.implementation_artifact)] when the parameters end
    before either happens.  Every parameter list is in one of these cases. *)
Theorem find_other_type_spec `{Mypy} (method : _MethodInfo) :
  expected_position method = (if mi_is_static method then 0 else 1)
  ∧ (∀ pre arg_kind arg_type post,
       parameters method = pre ++ (arg_kind, arg_type) :: post →
       (∀ p, p ∈ pre → positional p.1 ∨ p.1 = ARG_STAR2) →
       (positional arg_kind
        ∧ count_positional pre = expected_position method)
       ∨ (¬ positional arg_kind ∧ arg_kind ≠ ARG_STAR2
          ∧ count_positional pre ≤ expected_position method) →
       _find_other_type method = arg_type)
  ∧ ((∀ p, p ∈ parameters method → positional p.1 ∨ p.1 = ARG_STAR2) →
     count_positional (parameters method) ≤ expected_position method →
     _find_other_type method = AnyType implementation_artifact)
  ∧ ((∃ pre arg_kind arg_type post,
        parameters method = pre ++ (arg_kind, arg_type) :: post
        ∧ (∀ p, p ∈ pre → positional p.1 ∨ p.1 = ARG_STAR2)
        ∧ ((positional arg_kind
            ∧ count_positional pre = expected_position method)
           ∨ (¬ positional arg_kind ∧ arg_kind ≠ ARG_STAR2
              ∧ count_positional pre ≤ expected_position method)))
     ∨ ((∀ p, p ∈ parameters method → positional p.1 ∨ p.1 = ARG_STAR2)
        ∧ count_positional (parameters method) ≤ expected_position method)).
Proof.
  split; [reflexivity |]. split; [| split].
  - intros pre k t post Hparams Hpre Hcase.
    unfold _find_other_type. fold (expected_position method).
    fold (parameters method). rewrite Hparams.
    rewrite find_other_loop_skip; [| assumption | destruct Hcase; lia].
    simpl. destruct Hcase as [[Hk Hcount] | (Hk & Hstar & Hcount)].
    + rewrite bool_decide_true by exact Hk.
      rewrite Hcount, Z.eqb_refl. reflexivity.
    + rewrite bool_decide_false by exact Hk.
      rewrite bool_decide_false by exact Hstar. reflexivity.
  - intros Hall Hcount.
    unfold _find_other_type. fold (expected_position method).
    fold (parameters method).
    rewrite <- (app_nil_r (parameters method)).
    rewrite find_other_loop_skip by assumption. reflexivity.
  - assert (Hgen : ∀ (params : list (ArgKind * MypyType)) (first : Z),
              0 ≤ first →
              (∃ pre k t post,
                  params = pre ++ (k, t) :: post
                  ∧ (∀ p, p ∈ pre → positional p.1 ∨ p.1 = ARG_STAR2)
                  ∧ ((positional k ∧ count_positional pre = first)
                     ∨ (¬ positional k ∧ k ≠ ARG_STAR2
                        ∧ count_positional pre ≤ first)))
              ∨ ((∀ p, p ∈ params → positional p.1 ∨ p.1 = ARG_STAR2)
                 ∧ count_positional params ≤ first)).
    { induction params as [| [k t] params IH]; intros first Hfirst.
      - right. split; [| unfold count_positional; simpl; lia].
        intros p Hp. apply elem_of_nil in Hp. contradiction.
      - destruct (decide (positional k)) as [Hk | Hk].
        + destruct (decide (first = 0)) as [-> | Hne].
          * left. exists [], k, t, params. split; [reflexivity |].
            split; [intros p Hp; apply elem_of_nil in Hp; contradiction |].
            left. split; [assumption | reflexivity].
          * destruct (IH (first - 1)) as
              [(pre & k' & t' & post & -> & Hpre & Hcase) | [Hall Hcount]];
              [lia | left | right].
            -- exists ((k, t) :: pre), k', t', post. split; [reflexivity |].
               split.
               ++ intros p [-> | Hp]%elem_of_cons;
                    [left; assumption | apply Hpre; assumption].
               ++ rewrite count_positional_cons.
                  rewrite bool_decide_true by exact Hk.
                  destruct Hcase as [[? ?] | (? & ? & ?)];
                    [left; split; [assumption | lia]
                    | right; repeat split; [assumption | assumption | lia]].
            -- split.
               ++ intros p [-> | Hp]%elem_of_cons;
                    [left; assumption | apply Hall; assumption].
               ++ rewrite count_positional_cons.
                  rewrite bool_decide_true by exact Hk. lia.
        + destruct (decide (k = ARG_STAR2)) as [-> | Hstar].
          * destruct (IH first Hfirst) as
              [(pre & k' & t' & post & -> & Hpre & Hcase) | [Hall Hcount]];
              [left | right].
            -- exists ((ARG_STAR2, t) :: pre), k', t', post.
               split; [reflexivity |]. split.
               ++ intros p [-> | Hp]%elem_of_cons;
                    [right; reflexivity | apply Hpre; assumption].
               ++ rewrite count_positional_cons.
                  rewrite bool_decide_false by exact Hk. assumption.
            -- split.
               ++ intros p [-> | Hp]%elem_of_cons;
                    [right; reflexivity | apply Hall; assumption].
               ++ rewrite count_positional_cons.
                  rewrite bool_decide_false by exact Hk. assumption.
          * left. exists [], k, t, params. split; [reflexivity |].
            split; [intros p Hp; apply elem_of_nil in Hp; contradiction |].
            right. repeat split; [assumption | assumption |].
            unfold count_positional. simpl. assumption. }
    apply Hgen. unfold expected_position. destruct (mi_is_static method); lia.
Qed.

(** An instance method [(self, other: int) -> bool]: the operand type is the
    type of the second positional parameter. *)
Lemma find_other_type_spec_witness :
  _find_other_type Model.method_lt = Model.int_type.
Proof.
  destruct (find_other_type_spec Model.method_lt) as (_ & Hfound & _).
  apply (Hfound [(ARG_POS, Model.self_type)] ARG_POS Model.int_type []).
  - reflexivity.
  - intros p Hp. apply list_elem_of_singleton in Hp as ->. left. left. reflexivity.
  - left. split; [left; reflexivity | reflexivity].
Defined.

(** The operand type on some signatures: a static method with one parameter
    of type [int]; an instance method whose operand is keyword-only; an
    instance method that takes only variadic keyword arguments; a static
    method that takes variadic positional arguments of type [int]. *)
Example find_other_type_static :
  _find_other_type
    (mk_MethodInfo (H := Model.mypy) true
       (mkCallableType [Model.int_type] [ARG_POS] Model.bool_type))
  = Model.int_type.
Proof. reflexivity. Qed.

Example find_other_type_keyword_only :
  _find_other_type
    (mk_MethodInfo (H := Model.mypy) false
       (mkCallableType [Model.self_type; Model.int_type] [ARG_POS; ARG_NAMED]
                       Model.bool_type))
  = Model.int_type.
Proof. reflexivity. Qed.

Example find_other_type_kwargs_only :
  _find_other_type
    (mk_MethodInfo (H := Model.mypy) false
       (mkCallableType [Model.self_type; Model.int_type] [ARG_POS; ARG_STAR2]
                       Model.bool_type))
  = Model.Any implementation_artifact.
Proof. reflexivity. Qed.

Example find_other_type_star_args :
  _find_other_type
    (mk_MethodInfo (H := Model.mypy) true
       (mkCallableType [Model.int_type] [ARG_STAR] Model.bool_type))
  = Model.int_type.
Proof. reflexivity. Qed.

(** ** The paths through the entry point *)

Section CallbackFacts.
Context `{Mypy}.
Implicit Types (ctx : ClassDefContext) (order : list string).

Lemma supported_passes_gate ctx :
  supported ctx →
  Py.tuple_lt [(python_version ctx).1; (python_version ctx).2] [3] = false.
Proof.
  unfold supported. intros Hv. rewrite tuple_lt_version.
  apply Z.ltb_ge. assumption.
Qed.

Lemma callback_no_methods order ctx auto_attribs_default :
  supported ctx → _analyze_class order ctx = [] →
  functools_total_ordering_maker_callback order ctx auto_attribs_default
  = Some [fail msg_no_ordering (reason ctx)].
Proof.
  intros Hv Hnil. unfold functools_total_ordering_maker_callback.
  rewrite (supported_passes_gate ctx Hv), Hnil. reflexivity.
Qed.

Lemma callback_unanalyzable_root order ctx auto_attribs_default root :
  supported ctx →
  select_root (_analyze_class order ctx) = Some root →
  Unanalyzable (_analyze_class order ctx) root →
  functools_total_ordering_maker_callback order ctx auto_attribs_default
  = Some [].
Proof.
  intros Hv Hroot Hun. unfold functools_total_ordering_maker_callback.
  rewrite (supported_passes_gate ctx Hv), Hroot, Hun.
  destruct (_analyze_class order ctx) eqn:E; [discriminate Hroot | reflexivity].
Qed.

Lemma callback_known_root order ctx auto_attribs_default root root_method :
  supported ctx →
  select_root (_analyze_class order ctx) = Some root →
  Py.getitem root (_analyze_class order ctx) = Some (Some root_method) →
  functools_total_ordering_maker_callback order ctx auto_attribs_default
  = Some (add_missing order (_analyze_class order ctx)
            (_find_other_type root_method) (resolve_ret_type ctx root_method)).
Proof.
  intros Hv Hroot Hget. unfold functools_total_ordering_maker_callback.
  rewrite (supported_passes_gate ctx Hv), Hroot, Hget.
  destruct (_analyze_class order ctx) eqn:E; [discriminate Hroot | reflexivity].
Qed.

(** [d.get(name)] is falsy exactly when [name] has no Known entry. *)
Lemma get_None_not_known (d : Py.dict (option _MethodInfo)) name :
  Py.get name d = None ↔ ¬ Known d name.
Proof.
  unfold Py.get, Known. destruct (Py.getitem name d) as [[m |] |]; split;
    try discriminate; try reflexivity.
  - intros Hnot. exfalso. apply Hnot. exists m. reflexivity.
  - intros _ [m Hm]. discriminate.
  - intros _ [m Hm]. discriminate.
Qed.

Lemma add_missing_elem_of order (d : Py.dict (option _MethodInfo))
    (other_type return_type : MypyType) (e : Effect) :
  e ∈ add_missing order d other_type return_type
  ↔ ∃ name, name ∈ order ∧ ¬ Known d name
            ∧ e = add_method_to_class name [other_argument other_type]
                    return_type.
Proof.
  unfold add_missing. rewrite list_elem_of_In, in_flat_map. split.
  - intros (name & Hname & He). exists name.
    rewrite <- get_None_not_known, list_elem_of_In.
    destruct (Py.get name d); [destruct He |].
    destruct He as [<- | []]. repeat split. assumption.
  - intros (name & Hname & Hnot & ->). exists name.
    rewrite <- list_elem_of_In. split; [assumption |].
    apply get_None_not_known in Hnot. rewrite Hnot. left. reflexivity.
Qed.

Lemma add_missing_NoDup order (d : Py.dict (option _MethodInfo))
    (other_type return_type : MypyType) :
  NoDup order → NoDup (add_missing order d other_type return_type).
Proof.
  intros Hnd. induction Hnd as [| name order Hname Hnd IH].
  - apply NoDup_nil_2.
  - change (add_missing (name :: order) d other_type return_type)
      with (match Py.get name d with
            | None => [add_method_to_class name [other_argument other_type]
                         return_type]
            | Some _ => []
            end ++ add_missing order d other_type return_type).
    destruct (Py.get name d); [exact IH |].
    apply NoDup_cons. split; [| exact IH].
    intros (name' & Hin & _ & [= <-])%add_missing_elem_of. contradiction.
Qed.

Lemma analyze_class_empty order ctx :
  (∀ cls name, cls ∈ chain ctx → name ∈ order → names cls !! name = None) →
  _analyze_class order ctx = [].
Proof.
  intros Hnone. destruct (_analyze_class order ctx) as [| [k v] d] eqn:E;
    [reflexivity | exfalso].
  assert (Hget : Py.getitem k (_analyze_class order ctx) = Some v).
  { rewrite E. simpl. rewrite String.eqb_refl. reflexivity. }
  rewrite analyze_class_getitem in Hget.
  destruct (decide (k ∈ order)) as [Hk | _]; [| discriminate].
  rewrite closest_declaration_none in Hget; [discriminate |].
  intros c Hc. apply Hnone; assumption.
Qed.

End CallbackFacts.

(** C5 (return-type resolution).  In a run whose root is Known, every method
    that is added gets the same return type.  It is the boolean type
    ([named_type('__builtins__.bool')]) when the declared return type of the
    root is equal to that type, or is an unbound type whose name has [bool] as
    its last dotted component; in every other case it is
    [AnyType(TypeOfAny.implementation_artifact)].  That marker being another
    type than the boolean type, the return type is boolean exactly in the two
    cases named. *)
Theorem return_type_resolution `{Mypy} (order : list string)
    (ctx : ClassDefContext) (auto_attribs_default : bool) (root : string)
    (root_method : _MethodInfo) :
  supported ctx →
  select_root (_analyze_class order ctx) = Some root →
  Py.getitem root (_analyze_class order ctx) = Some (Some root_method) →
  ∃ effects,
    functools_total_ordering_maker_callback order ctx auto_attribs_default
    = Some effects
    ∧ (∀ name args return_type,
         add_method_to_class name args return_type ∈ effects →
         return_type = resolve_ret_type ctx root_method)
    ∧ (declared_boolean ctx root_method →
       resolve_ret_type ctx root_method = named_type ctx "__builtins__.bool")
    ∧ (¬ declared_boolean ctx root_method →
       resolve_ret_type ctx root_method = AnyType implementation_artifact)
    ∧ (AnyType implementation_artifact ≠ named_type ctx "__builtins__.bool" →
       (resolve_ret_type ctx root_method = named_type ctx "__builtins__.bool"
        ↔ declared_boolean ctx root_method)).
Proof.
  intros Hv Hroot Hget. eexists. split.
  { apply (callback_known_root order ctx auto_attribs_default root root_method);
      assumption. }
  split.
  { intros name args return_type Hin.
    apply add_missing_elem_of in Hin as (name' & _ & _ & [= _ _ ->]).
    reflexivity. }
  assert (Hyes : declared_boolean ctx root_method →
                 resolve_ret_type ctx root_method
                 = named_type ctx "__builtins__.bool").
  { unfold declared_boolean, resolve_ret_type.
    intros [Heq | (name & Hunbound & Hlast)].
    - rewrite Heq. reflexivity.
    - destruct (type_eq _ _); [reflexivity |]. cbn [negb].
      rewrite Hunbound. rewrite bool_decide_true by exact Hlast. reflexivity. }
  assert (Hno : ¬ declared_boolean ctx root_method →
                resolve_ret_type ctx root_method
                = AnyType implementation_artifact).
  { unfold declared_boolean, resolve_ret_type. intros Hnot.
    destruct (type_eq _ _) eqn:Heq; [exfalso; apply Hnot; left; reflexivity |].
    cbn [negb].
    destruct (isinstance_UnboundType _) as [name |] eqn:Hunbound;
      [| reflexivity].
    case_bool_decide as Hlast; [| reflexivity].
    exfalso. apply Hnot. right. exists name. split; [reflexivity | assumption]. }
  split; [exact Hyes |]. split; [exact Hno |].
  intros Hdistinct. split; [| exact Hyes].
  intros Hbool.
  destruct (type_eq (ret_type (mi_type root_method))
                    (named_type ctx "__builtins__.bool")) eqn:Heq;
    [left; exact Heq |].
  destruct (isinstance_UnboundType
              (get_proper_type (ret_type (mi_type root_method))))
    as [name |] eqn:Hunbound.
  - destruct (decide (last (Py.split "."%char name) = Some "bool"))
      as [Hlast | Hlast].
    + right. exists name. split; assumption.
    + exfalso. apply Hdistinct. rewrite <- Hbool. symmetry. apply Hno.
      intros [Heq' | (name' & Hunbound' & Hlast')]; [congruence |].
      rewrite Hunbound in Hunbound'. congruence.
  - exfalso. apply Hdistinct. rewrite <- Hbool. symmetry. apply Hno.
    intros [Heq' | (name' & Hunbound' & _)]; congruence.
Qed.

(** On a class whose only ordering method is
    [def __lt__(self, other: int) -> R]: the root is [__lt__]; the added
    methods return the boolean type when [R] is [bool] or the unbound name
    [builtins.bool], and [AnyType(TypeOfAny.implementation_artifact)] when [R]
    is [int]. *)
Lemma return_type_resolution_witness :
  (∀ R, supported (Model.ctx_returning R)
        ∧ select_root (_analyze_class Model.some_order (Model.ctx_returning R))
          = Some "__lt__"
        ∧ Py.getitem "__lt__"
            (_analyze_class Model.some_order (Model.ctx_returning R))
          = Some (Some (Model.method_returning R)))
  ∧ resolve_ret_type (Model.ctx_returning Model.bool_type)
      (Model.method_returning Model.bool_type) = Model.bool_type
  ∧ resolve_ret_type (Model.ctx_returning (Model.Unbound "builtins.bool"))
      (Model.method_returning (Model.Unbound "builtins.bool")) = Model.bool_type
  ∧ resolve_ret_type (Model.ctx_returning Model.int_type)
      (Model.method_returning Model.int_type)
    = Model.Any implementation_artifact.
Proof.
  assert (Hrun : ∀ R,
            supported (Model.ctx_returning R)
            ∧ select_root
                (_analyze_class Model.some_order (Model.ctx_returning R))
              = Some "__lt__"
            ∧ Py.getitem "__lt__"
                (_analyze_class Model.some_order (Model.ctx_returning R))
              = Some (Some (Model.method_returning R))).
  { intros R. split; [unfold supported; simpl; lia |].
    split; vm_compute; reflexivity. }
  split; [exact Hrun |].
  assert (Hcases : ∀ R,
            (declared_boolean (Model.ctx_returning R) (Model.method_returning R) →
             resolve_ret_type (Model.ctx_returning R) (Model.method_returning R)
             = Model.bool_type)
            ∧ (¬ declared_boolean (Model.ctx_returning R)
                   (Model.method_returning R) →
               resolve_ret_type (Model.ctx_returning R)
                 (Model.method_returning R)
               = Model.Any implementation_artifact)).
  { intros R. destruct (Hrun R) as (Hv & Hroot & Hget).
    destruct (return_type_resolution Model.some_order (Model.ctx_returning R)
                false "__lt__" (Model.method_returning R) Hv Hroot Hget)
      as (_ & _ & _ & Hyes & Hno & _).
    split; assumption. }
  split; [| split].
  - apply Hcases. left. vm_compute. reflexivity.
  - apply Hcases. right. exists "builtins.bool".
    split; vm_compute; reflexivity.
  - apply Hcases. intros [Heq | (name & Hunbound & _)];
      vm_compute in *; discriminate.
Defined.

(** C2 (synthesis), in the form the code satisfies.  In a supported mode,
    whenever the root chosen from the map is Known, the run makes exactly one
    call of [add_method_to_class] for each of the four operators that has no
    Known entry, and no other call: each added method has the single
    required-positional parameter [other] of the operand type found in the
    root and the return type resolved from the root, no diagnostic is
    emitted, and no operator with a Known entry is added. *)
Theorem synthesis_from_known_root `{Mypy} (order : list string)
    (ctx : ClassDefContext) (auto_attribs_default : bool) (root : string)
    (root_method : _MethodInfo) :
  order ≡ₚ _ORDERING_METHODS →
  supported ctx →
  select_root (_analyze_class order ctx) = Some root →
  Py.getitem root (_analyze_class order ctx) = Some (Some root_method) →
  ∃ effects,
    functools_total_ordering_maker_callback order ctx auto_attribs_default
    = Some effects
    ∧ NoDup effects
    ∧ ∀ e,
        e ∈ effects
        ↔ ∃ name,
            name ∈ _ORDERING_METHODS
            ∧ ¬ Known (_analyze_class order ctx) name
            ∧ e = add_method_to_class name
                    [other_argument (_find_other_type root_method)]
                    (resolve_ret_type ctx root_method).
Proof.
  intros Hperm Hv Hroot Hget. eexists. split.
  { apply (callback_known_root order ctx auto_attribs_default root root_method);
      assumption. }
  split.
  - apply add_missing_NoDup. rewrite Hperm.
    by_evaluation.
  - intros e. rewrite add_missing_elem_of.
    split; intros (name & Hname & Hrest); exists name;
      (split; [| exact Hrest]).
    + rewrite <- Hperm. assumption.
    + rewrite Hperm. assumption.
Qed.

(** On the class that defines [__lt__(self, other: int) -> bool] only:
    [__le__], [__gt__] and [__ge__] are added with [other: int] and the
    boolean return type, and [__lt__] is not. *)
Lemma synthesis_from_known_root_witness :
  Model.some_order ≡ₚ _ORDERING_METHODS
  ∧ supported Model.ctx_lt
  ∧ select_root (_analyze_class Model.some_order Model.ctx_lt) = Some "__lt__"
  ∧ Py.getitem "__lt__" (_analyze_class Model.some_order Model.ctx_lt)
    = Some (Some Model.method_lt)
  ∧ ∃ effects,
      functools_total_ordering_maker_callback Model.some_order Model.ctx_lt false
      = Some effects
      ∧ add_method_to_class "__le__" [other_argument Model.int_type]
          Model.bool_type ∈ effects
      ∧ (∀ args return_type,
           add_method_to_class "__lt__" args return_type ∉ effects).
Proof.
  assert (Hperm : Model.some_order ≡ₚ _ORDERING_METHODS).
  { by_evaluation. }
  assert (Hv : supported Model.ctx_lt) by (unfold supported; simpl; lia).
  assert (Hroot : select_root (_analyze_class Model.some_order Model.ctx_lt)
                  = Some "__lt__") by (vm_compute; reflexivity).
  assert (Hget : Py.getitem "__lt__" (_analyze_class Model.some_order Model.ctx_lt)
                 = Some (Some Model.method_lt)) by (vm_compute; reflexivity).
  split; [exact Hperm |]. split; [exact Hv |].
  split; [exact Hroot |]. split; [exact Hget |].
  destruct (synthesis_from_known_root Model.some_order Model.ctx_lt false
              "__lt__" Model.method_lt Hperm Hv Hroot Hget)
    as (effects & Hrun & _ & Hcalls).
  exists effects. split; [exact Hrun |]. split.
  - apply Hcalls. exists "__le__". split.
    + by_evaluation.
    + split; [| vm_compute; reflexivity].
      intros [method Hmethod]. vm_compute in Hmethod. discriminate.
  - intros args return_type Hin.
    apply Hcalls in Hin as (name & _ & Hnot & [= <- _ _]).
    apply Hnot. exists Model.method_lt. exact Hget.
Defined.

(** C2 does not hold for every class whose chain declares an operator with
    a valid signature.  A class binds [__lt__] to an integer while its base
    class defines [__lt__(self, other: int) -> bool]: the chain
    declares an operator with a valid callable signature, but the closer
    declaration shadows it, the only entry of the map is Unanalyzable, and the
    run adds nothing. *)
Lemma synthesis_shadowed_counterexample :
  supported Model.ctx_shadowed_only
  ∧ declares_analyzable_operator Model.ctx_shadowed_only
  ∧ functools_total_ordering_maker_callback Model.some_order
      Model.ctx_shadowed_only false = Some []
  ∧ ¬ synthesizes_every_open_slot Model.some_order Model.ctx_shadowed_only.
Proof.
  split; [unfold supported; simpl; lia |]. split; [| split].
  - exists (Model.class_of [("__lt__", Model.def_lt)]), "__lt__", Model.def_lt,
      Model.method_lt.
    split; [| split; [| split]].
    + apply elem_of_cons. right. apply elem_of_cons. left. reflexivity.
    + apply elem_of_cons. left. reflexivity.
    + vm_compute. reflexivity.
    + reflexivity.
  - vm_compute. reflexivity.
  - intros (effects & other_type & return_type & Hrun & Hall).
    assert (Hnone : functools_total_ordering_maker_callback Model.some_order
                      Model.ctx_shadowed_only false = Some [])
      by (vm_compute; reflexivity).
    rewrite Hnone in Hrun. injection Hrun as <-.
    assert (Hin : add_method_to_class "__le__" [other_argument other_type]
                    return_type ∈ ([] : list Effect)).
    { apply Hall.
      - apply elem_of_cons. right. apply elem_of_cons. left. reflexivity.
      - intros [method Hmethod]. vm_compute in Hmethod. discriminate. }
    apply elem_of_nil in Hin. exact Hin.
Qed.

(** C6 (silent no-op on an unanalyzable root).  In a run that passes the
    version gate and chooses a root whose entry is Unanalyzable, the plugin
    calls neither [ctx.api.fail] nor [add_method_to_class]: whatever the
    collaborators do with the calls of a run, the state they act on is left as
    it was. *)
Theorem unanalyzable_root_is_silent `{Mypy} (order : list string)
    (ctx : ClassDefContext) (auto_attribs_default : bool) (root : string) :
  supported ctx →
  select_root (_analyze_class order ctx) = Some root →
  Unanalyzable (_analyze_class order ctx) root →
  functools_total_ordering_maker_callback order ctx auto_attribs_default
  = Some []
  ∧ ∀ (W : Type) (on_fail : string → Expression → W → W)
      (on_add : string → list Argument → MypyType → W → W) (w : W) effects,
      functools_total_ordering_maker_callback order ctx auto_attribs_default
      = Some effects →
      run_effects on_fail on_add effects w = w.
Proof.
  intros Hv Hroot Hun.
  pose proof (callback_unanalyzable_root order ctx auto_attribs_default root
                Hv Hroot Hun) as Hrun.
  split; [exact Hrun |].
  intros W on_fail on_add w effects Heffects.
  rewrite Hrun in Heffects. injection Heffects as <-. reflexivity.
Qed.

(** On the class that binds [__lt__] to an integer, shadowing the [__lt__] of
    its base: the root is [__lt__], its entry is [None], nothing happens. *)
Lemma unanalyzable_root_is_silent_witness :
  supported Model.ctx_shadowed_only
  ∧ select_root (_analyze_class Model.some_order Model.ctx_shadowed_only)
    = Some "__lt__"
  ∧ Unanalyzable (_analyze_class Model.some_order Model.ctx_shadowed_only)
      "__lt__"
  ∧ functools_total_ordering_maker_callback Model.some_order
      Model.ctx_shadowed_only false = Some [].
Proof.
  assert (Hv : supported Model.ctx_shadowed_only)
    by (unfold supported; simpl; lia).
  assert (Hroot : select_root
                    (_analyze_class Model.some_order Model.ctx_shadowed_only)
                  = Some "__lt__") by (vm_compute; reflexivity).
  assert (Hun : Unanalyzable
                  (_analyze_class Model.some_order Model.ctx_shadowed_only)
                  "__lt__") by (vm_compute; reflexivity).
  split; [exact Hv |]. split; [exact Hroot |]. split; [exact Hun |].
  exact (proj1 (unanalyzable_root_is_silent Model.some_order
                  Model.ctx_shadowed_only false "__lt__" Hv Hroot Hun)).
Defined.

(** C7 (no ordering operation).  In a supported mode, when no class of the
    chain declares any of the four operators, the run consists of one call of
    [ctx.api.fail], with the message that no ordering operation is defined,
    and adds no method. *)
Theorem no_ordering_operation_defined `{Mypy} (order : list string)
    (ctx : ClassDefContext) (auto_attribs_default : bool) :
  order ≡ₚ _ORDERING_METHODS →
  supported ctx →
  (∀ cls name,
     cls ∈ chain ctx → name ∈ _ORDERING_METHODS → names cls !! name = None) →
  functools_total_ordering_maker_callback order ctx auto_attribs_default
  = Some [fail msg_no_ordering (reason ctx)].
Proof.
  intros Hperm Hv Hnone. apply callback_no_methods; [assumption |].
  apply analyze_class_empty. intros cls name Hcls Hname.
  apply Hnone; [assumption |]. rewrite <- Hperm. assumption.
Qed.

(** On a class that defines no ordering method (its only member is
    [__eq__]): one diagnostic. *)
Lemma no_ordering_operation_defined_witness :
  Model.some_order ≡ₚ _ORDERING_METHODS
  ∧ supported Model.ctx_none
  ∧ functools_total_ordering_maker_callback Model.some_order Model.ctx_none false
    = Some [fail msg_no_ordering "functools.total_ordering"].
Proof.
  assert (Hperm : Model.some_order ≡ₚ _ORDERING_METHODS).
  { by_evaluation. }
  assert (Hv : supported Model.ctx_none) by (unfold supported; simpl; lia).
  split; [exact Hperm |]. split; [exact Hv |].
  apply (no_ordering_operation_defined Model.some_order Model.ctx_none false
           Hperm Hv).
  intros cls name Hcls Hname.
  apply list_elem_of_singleton in Hcls as ->.
  repeat (apply elem_of_cons in Hname as [-> | Hname];
          [vm_compute; reflexivity |]).
  apply elem_of_nil in Hname. contradiction.
Defined.

(** C9 (compatibility gate).  When the major version of the analysis mode is
    below 3, the run consists of one call of [ctx.api.fail] saying that
    [functools.total_ordering] is not supported in Python 2; the classes of
    the MRO are not looked at (the run is the same whatever they are) and no
    method is added. *)
Theorem python2_is_rejected `{Mypy} (order : list string)
    (ctx : ClassDefContext) (auto_attribs_default : bool) :
  (python_version ctx).1 < 3 →
  functools_total_ordering_maker_callback order ctx auto_attribs_default
  = Some [fail msg_python2 (reason ctx)]
  ∧ ∀ order' classes,
      functools_total_ordering_maker_callback order'
        (mkClassDefContext (python_version ctx) (named_type ctx) classes
           (reason ctx))
        auto_attribs_default
      = functools_total_ordering_maker_callback order ctx auto_attribs_default.
Proof.
  intros Hv.
  assert (Hgate : Py.tuple_lt [(python_version ctx).1; (python_version ctx).2] [3]
                  = true).
  { rewrite tuple_lt_version. apply Z.ltb_lt. assumption. }
  unfold functools_total_ordering_maker_callback. split.
  - rewrite Hgate. reflexivity.
  - intros order' classes. cbn [python_version reason].
    rewrite Hgate. reflexivity.
Qed.

(** On a class that defines [__lt__], checked in Python 2.7 mode. *)
Lemma python2_is_rejected_witness :
  (python_version Model.ctx_python2).1 < 3
  ∧ functools_total_ordering_maker_callback Model.some_order Model.ctx_python2
      false
    = Some [fail msg_python2 "functools.total_ordering"].
Proof.
  assert (Hv : (python_version Model.ctx_python2).1 < 3) by (simpl; lia).
  split; [exact Hv |].
  exact (proj1 (python2_is_rejected Model.some_order Model.ctx_python2 false Hv)).
Defined.

(** C10 (the parameter [auto_attribs_default] is not read).  Two runs on the
    same context that differ only in [auto_attribs_default] make the same
    calls, in the same order. *)
Theorem auto_attribs_default_is_ignored `{Mypy} (order : list string)
    (ctx : ClassDefContext) (a b : bool) :
  functools_total_ordering_maker_callback order ctx a
  = functools_total_ordering_maker_callback order ctx b.
Proof. reflexivity. Qed.

(** ** A class that holds all four operators *)

Section CompletedFacts.
Context `{Mypy}.
Implicit Types (ctx after : ClassDefContext) (order : list string).

Lemma all_present_no_effects order ctx auto_attribs_default :
  order ≡ₚ _ORDERING_METHODS →
  supported ctx →
  (∀ name, name ∈ _ORDERING_METHODS →
           Py.contains name (_analyze_class order ctx) = true) →
  functools_total_ordering_maker_callback order ctx auto_attribs_default
  = Some [].
Proof.
  intros Hperm Hv Hall.
  destruct (select_root (_analyze_class order ctx)) as [root |] eqn:Hroot.
  - destruct (select_root_Some _ _ Hroot) as [Hin _].
    apply getitem_Some_elem_of in Hin as [[root_method |] Hget].
    + rewrite (callback_known_root order ctx auto_attribs_default root
                 root_method Hv Hroot Hget).
      f_equal. apply elem_of_nil_inv. intros e He.
      apply add_missing_elem_of in He as (name & Hname & Hnot & _).
      apply Hnot.
      apply (root_known_all_known _ root Hroot); [exists root_method; exact Hget |].
      apply contains_true, Hall. rewrite <- Hperm. assumption.
    + apply (callback_unanalyzable_root order ctx auto_attribs_default root);
        assumption.
  - apply select_root_None in Hroot.
    specialize (Hall "__lt__"). rewrite Hroot in Hall. simpl in Hall.
    discriminate Hall. apply elem_of_cons. left. reflexivity.
Qed.

Lemma chain_cons (cls base : TypeInfo) (bases : list TypeInfo) :
  removelast (cls :: base :: bases) = cls :: removelast (base :: bases).
Proof. reflexivity. Qed.

Lemma members_inserted_complete order ctx after auto_attribs_default root
    effects :
  order ≡ₚ _ORDERING_METHODS →
  supported ctx →
  select_root (_analyze_class order ctx) = Some root →
  Known (_analyze_class order ctx) root →
  functools_total_ordering_maker_callback order ctx auto_attribs_default
  = Some effects →
  members_inserted effects ctx after →
  ∀ name, name ∈ _ORDERING_METHODS →
          Py.contains name (_analyze_class order after) = true.
Proof.
  intros Hperm Hv Hroot [root_method Hget] Hrun
         (_ & cls & cls' & bases & Hmro & Hmro' & Hnames) name Hname.
  rewrite (callback_known_root order ctx auto_attribs_default root root_method
             Hv Hroot Hget) in Hrun.
  injection Hrun as <-.
  assert (Horder : name ∈ order) by (rewrite Hperm; assumption).
  destruct bases as [| base bases].
  { exfalso. unfold _analyze_class in Hroot. rewrite Hmro in Hroot.
    simpl in Hroot. discriminate Hroot. }
  assert (Hbefore := analyze_class_getitem order ctx name).
  assert (Hafter := analyze_class_getitem order after name).
  unfold chain in Hbefore, Hafter.
  rewrite Hmro, chain_cons in Hbefore. rewrite Hmro', chain_cons in Hafter.
  destruct (decide (name ∈ order)) as [_ | Hnot]; [| contradiction].
  simpl in Hbefore, Hafter.
  destruct (Hnames name) as [Hadded Hkept].
  unfold Py.contains.
  destruct (Py.getitem name (_analyze_class order ctx)) as [[method |] |] eqn:E.
  - rewrite Hkept in Hafter.
    + rewrite Hafter, <- Hbefore. reflexivity.
    + intros (args & return_type & Hin).
      apply add_missing_elem_of in Hin as (name' & _ & Hnot & [= <- _ _]).
      apply Hnot. exists method. exact E.
  - destruct Hadded as (sym & method & Hsym & _).
    + eexists _, _. apply add_missing_elem_of. exists name.
      split; [assumption |]. split; [| reflexivity].
      intros [method Hmethod]. congruence.
    + rewrite Hsym in Hafter. rewrite Hafter. reflexivity.
  - destruct Hadded as (sym & method & Hsym & _).
    + eexists _, _. apply add_missing_elem_of. exists name.
      split; [assumption |]. split; [| reflexivity].
      intros [method Hmethod]. congruence.
    + rewrite Hsym in Hafter. rewrite Hafter. reflexivity.
Qed.

End CompletedFacts.

(** C8 (idempotence).  In a run that passes the version gate and finds all
    four operators in the map, the plugin adds no method and emits no
    diagnostic.  Hence, once the methods added by a run with a Known root are
    members of the class, a second run on the class does nothing. *)
Theorem completed_class_idempotence `{Mypy} (order : list string) :
  order ≡ₚ _ORDERING_METHODS →
  (∀ ctx auto_attribs_default,
     supported ctx →
     (∀ name, name ∈ _ORDERING_METHODS →
              Py.contains name (_analyze_class order ctx) = true) →
     functools_total_ordering_maker_callback order ctx auto_attribs_default
     = Some [])
  ∧ (∀ ctx after auto_attribs_default auto_attribs_default' root effects,
       supported ctx →
       select_root (_analyze_class order ctx) = Some root →
       Known (_analyze_class order ctx) root →
       functools_total_ordering_maker_callback order ctx auto_attribs_default
       = Some effects →
       members_inserted effects ctx after →
       functools_total_ordering_maker_callback order after
         auto_attribs_default'
       = Some []).
Proof.
  intros Hperm. split.
  - intros ctx auto_attribs_default Hv Hall.
    apply all_present_no_effects; assumption.
  - intros ctx after a a' root effects Hv Hroot Hknown Hrun Hafter.
    apply all_present_no_effects; [assumption | |].
    + destruct Hafter as [Hversion _]. unfold supported in *.
      rewrite Hversion. assumption.
    + eapply members_inserted_complete; eassumption.
Qed.

(** The class that defines [__lt__] only, and the same class once [__le__],
    [__gt__] and [__ge__] have been added: the second run does nothing. *)
Lemma completed_class_idempotence_witness :
  Model.some_order ≡ₚ _ORDERING_METHODS
  ∧ (∃ effects,
       functools_total_ordering_maker_callback Model.some_order Model.ctx_lt
         false = Some effects
       ∧ members_inserted effects Model.ctx_lt Model.ctx_lt_completed)
  ∧ functools_total_ordering_maker_callback Model.some_order
      Model.ctx_lt_completed false = Some [].
Proof.
  assert (Hperm : Model.some_order ≡ₚ _ORDERING_METHODS).
  { by_evaluation. }
  destruct (completed_class_idempotence Model.some_order Hperm)
    as [_ Hsecond].
  assert (Hrun : functools_total_ordering_maker_callback Model.some_order
                   Model.ctx_lt false
                 = Some (add_missing Model.some_order
                           (_analyze_class Model.some_order Model.ctx_lt)
                           Model.int_type Model.bool_type))
    by (vm_compute; reflexivity).
  assert (Hafter : members_inserted
                     (add_missing Model.some_order
                        (_analyze_class Model.some_order Model.ctx_lt)
                        Model.int_type Model.bool_type)
                     Model.ctx_lt Model.ctx_lt_completed).
  { split; [reflexivity |].
    eexists _, _, _. split; [reflexivity |]. split; [reflexivity |].
    intros name. split.
    - intros (args & return_type & Hin).
      apply add_missing_elem_of in Hin as (name' & Hname & _ & [= <- _ _]).
      repeat (apply elem_of_cons in Hname as [-> | Hname];
              [eexists _, _; split; vm_compute; reflexivity |]).
      apply elem_of_nil in Hname. contradiction.
    - intros Hnot.
      assert (Hadded : ∀ name', name' ∈ ["__le__"; "__gt__"; "__ge__"] →
                                name ≠ name').
      { intros name' Hname' ->. apply Hnot. eexists _, _.
        apply add_missing_elem_of. exists name'.
        split; [| split; [| reflexivity]].
        - repeat (apply elem_of_cons in Hname' as [-> | Hname'];
                  [by_evaluation |]).
          apply elem_of_nil in Hname'. contradiction.
        - intros [method Hmethod].
          repeat (apply elem_of_cons in Hname' as [-> | Hname'];
                  [vm_compute in Hmethod; discriminate |]).
          apply elem_of_nil in Hname'. contradiction. }
      unfold Model.class_of. cbn [names list_to_map foldr fst snd].
      destruct (decide (name = "__lt__")) as [-> | Hlt].
      + rewrite !lookup_insert_eq. reflexivity.
      + rewrite !lookup_insert_ne
          by (intros <-;
              first [ apply Hlt; reflexivity
                    | eapply Hadded; [| reflexivity];
                      by_evaluation ]).
        reflexivity. }
  split; [exact Hperm |]. split; [eexists; split; eassumption |].
  eapply (Hsecond Model.ctx_lt Model.ctx_lt_completed false false "__lt__").
  - unfold supported. simpl. lia.
  - vm_compute. reflexivity.
  - exists Model.method_lt. vm_compute. reflexivity.
  - exact Hrun.
  - exact Hafter.
Defined.

(** C1 (root selection), on the code.  A class defines
    [__lt__(self, other: int) -> bool] and binds [__le__] to an integer: the
    map holds a Known entry for [__lt__] and an Unanalyzable one for
    [__le__].  The root that line 40 chooses is [__le__], the Unanalyzable
    entry, and the run ends there without adding a method. *)
Lemma root_selection_prefers_unanalyzable :
  Known (_analyze_class Model.some_order Model.ctx_lt_and_unanalyzable) "__lt__"
  ∧ Unanalyzable (_analyze_class Model.some_order Model.ctx_lt_and_unanalyzable)
      "__le__"
  ∧ select_root (_analyze_class Model.some_order Model.ctx_lt_and_unanalyzable)
    = Some "__le__"
  ∧ functools_total_ordering_maker_callback Model.some_order
      Model.ctx_lt_and_unanalyzable false = Some [].
Proof.
  split; [exists Model.method_lt; vm_compute; reflexivity |].
  repeat split; vm_compute; reflexivity.
Qed.

(** What line 40 selects (the part of C1 that the code has, and what it does
    instead of preferring Known entries).  The root is a key of the map.  As
    soon as one entry is Unanalyzable the root is Unanalyzable; among the
    entries of the same analyzability as the root, the root has the greatest
    name, and the names rank [__lt__ > __le__ > __gt__ > __ge__]. *)
Theorem root_selection_order `{Mypy} (d : Py.dict (option _MethodInfo))
    (root : string) :
  select_root d = Some root →
  root ∈ Py.keys d
  ∧ ((∃ k, Unanalyzable d k) → Unanalyzable d root)
  ∧ (∀ k, k ∈ Py.keys d →
          (Unanalyzable d k ↔ Unanalyzable d root) →
          k = root ∨ String.ltb k root = true)
  ∧ String.ltb "__le__" "__lt__" = true
  ∧ String.ltb "__gt__" "__le__" = true
  ∧ String.ltb "__ge__" "__gt__" = true.
Proof.
  intros Hroot. destruct (select_root_Some d root Hroot) as [Hin Hmax].
  split; [exact Hin |]. split; [| split; [| exact ordering_names_ranked]].
  - intros [k Hk].
    pose proof Hin as [[method |] Hget]%getitem_Some_elem_of; [| exact Hget].
    assert (Hkeys : k ∈ Py.keys d).
    { apply getitem_Some_elem_of. unfold Unanalyzable in Hk. rewrite Hk. eauto. }
    destruct (root_known_all_known d root Hroot (ex_intro _ method Hget) k Hkeys)
      as [method' Hget'].
    unfold Unanalyzable in Hk. congruence.
  - intros k Hk Hsame.
    pose proof (root_greatest_name d root k Hroot Hk Hsame) as Hle.
    unfold String.leb in Hle. unfold String.ltb.
    destruct (String.compare k root) eqn:Hcmp; [| right; reflexivity | discriminate].
    left. apply String.compare_eq_iff. exact Hcmp.
Qed.

(** On the map of the class that defines [__lt__] and binds [__le__] to an
    integer, the root is the Unanalyzable [__le__]. *)
Lemma root_selection_order_witness :
  select_root (_analyze_class Model.some_order Model.ctx_lt_and_unanalyzable)
  = Some "__le__"
  ∧ Unanalyzable (_analyze_class Model.some_order Model.ctx_lt_and_unanalyzable)
      "__le__".
Proof.
  assert (Hroot : select_root
                    (_analyze_class Model.some_order
                       Model.ctx_lt_and_unanalyzable) = Some "__le__")
    by (vm_compute; reflexivity).
  split; [exact Hroot |].
  destruct (root_selection_order _ _ Hroot) as (_ & Hun & _).
  apply Hun. exists "__le__". vm_compute. reflexivity.
Defined.

(** The entry point always returns: neither [max] (the map is not empty when
    it is called) nor the subscript [comparison_methods[root]] (the root is a
    key) raises. *)
Theorem callback_returns `{Mypy} (order : list string) (ctx : ClassDefContext)
    (auto_attribs_default : bool) :
  ∃ effects,
    functools_total_ordering_maker_callback order ctx auto_attribs_default
    = Some effects.
Proof.
  unfold functools_total_ordering_maker_callback.
  destruct (Py.tuple_lt _ _); [eexists; reflexivity |].
  destruct (_analyze_class order ctx) as [| item d] eqn:E;
    [eexists; reflexivity |].
  cbn [Py.truthy negb].
  destruct (select_root (item :: d)) as [root |] eqn:Hroot.
  - destruct (select_root_Some _ _ Hroot) as [Hin _].
    apply getitem_Some_elem_of in Hin as [[method |] Hget];
      rewrite Hget; eexists; reflexivity.
  - apply select_root_None in Hroot. discriminate.
Qed.

(** * Further properties of the plugin *)

Section RunFacts.
Context `{Mypy}.
Implicit Types (d : Py.dict (option _MethodInfo)) (ctx : ClassDefContext)
  (order : list string).

Lemma pair_gt_antisym (x y : bool * string) :
  Py.pair_gt x y = false → Py.pair_gt y x = false → x = y.
Proof.
  rewrite !pair_gt_false. destruct x as [b1 k1], y as [b2 k2]; simpl.
  intros [[? ?] | [? Hle1]] [[? ?] | [? Hle2]]; try congruence.
  subst b2. f_equal. apply String.leb_antisym; assumption.
Qed.

Lemma keys_nil_lookup d : (∀ k, Py.getitem k d = None) → d = [].
Proof.
  destruct d as [| [k v] d]; [reflexivity |]. intros Hnone.
  specialize (Hnone k). simpl in Hnone. rewrite String.eqb_refl in Hnone.
  discriminate.
Qed.

Lemma keys_ext d1 d2 k :
  (∀ k, Py.getitem k d1 = Py.getitem k d2) → k ∈ Py.keys d1 → k ∈ Py.keys d2.
Proof.
  intros Hext. rewrite <- !getitem_Some_elem_of, Hext. trivial.
Qed.

Lemma root_key_ext d1 d2 k :
  (∀ k, Py.getitem k d1 = Py.getitem k d2) → root_key d1 k = root_key d2 k.
Proof. intros Hext. unfold root_key. rewrite Hext. reflexivity. Qed.

(** The root depends on the map only through its lookups, not on the order
    in which its keys were inserted. *)
Lemma select_root_ext d1 d2 :
  (∀ k, Py.getitem k d1 = Py.getitem k d2) → select_root d1 = select_root d2.
Proof.
  intros Hext.
  destruct (select_root d1) as [r1 |] eqn:H1, (select_root d2) as [r2 |] eqn:H2.
  - destruct (select_root_Some _ _ H1) as [Hin1 Hmax1].
    destruct (select_root_Some _ _ H2) as [Hin2 Hmax2].
    pose proof (Hmax1 r2 (keys_ext d2 d1 r2 (λ k, eq_sym (Hext k)) Hin2)) as Hle1.
    pose proof (Hmax2 r1 (keys_ext d1 d2 r1 Hext Hin1)) as Hle2.
    rewrite <- !(root_key_ext d1 d2) in Hle2 by exact Hext.
    pose proof (pair_gt_antisym _ _ Hle1 Hle2) as Heq.
    unfold root_key in Heq. injection Heq as _ ->. reflexivity.
  - apply select_root_None in H2. subst d2.
    rewrite (keys_nil_lookup d1) in H1; [discriminate H1 |].
    intros k. rewrite Hext. reflexivity.
  - apply select_root_None in H1. subst d1.
    rewrite (keys_nil_lookup d2) in H2; [discriminate H2 |].
    intros k. rewrite <- Hext. reflexivity.
  - reflexivity.
Qed.

Lemma add_missing_perm order1 order2 d1 d2 (other_type return_type : MypyType) :
  order1 ≡ₚ order2 →
  (∀ k, Py.getitem k d1 = Py.getitem k d2) →
  add_missing order1 d1 other_type return_type
  ≡ₚ add_missing order2 d2 other_type return_type.
Proof.
  intros Hperm Hext. unfold add_missing.
  rewrite (flat_map_ext _
             (λ additional_op,
                match Py.get additional_op d2 with
                | None =>
                    [add_method_to_class additional_op
                       [mkArgument (mkVar "other" (Some other_type) false)
                          (Some other_type) None ARG_POS] return_type]
                | Some _ => []
                end)).
  - apply Permutation_flat_map. exact Hperm.
  - intros name. unfold Py.get. rewrite Hext. reflexivity.
Qed.

Lemma analyze_class_getitem_perm order1 order2 ctx name :
  order1 ≡ₚ order2 →
  Py.getitem name (_analyze_class order1 ctx)
  = Py.getitem name (_analyze_class order2 ctx).
Proof.
  intros Hperm. rewrite !analyze_class_getitem.
  destruct (decide (name ∈ order1)) as [Hin | Hnot],
           (decide (name ∈ order2)) as [Hin' | Hnot']; try reflexivity.
  - exfalso. apply Hnot'. rewrite <- Hperm. assumption.
  - exfalso. apply Hnot. rewrite Hperm. assumption.
Qed.

(** The four ways a run can go. *)
Lemma callback_cases order ctx auto_attribs_default effects :
  functools_total_ordering_maker_callback order ctx auto_attribs_default
  = Some effects →
  (¬ supported ctx ∧ effects = [fail msg_python2 (reason ctx)])
  ∨ (supported ctx ∧ _analyze_class order ctx = []
     ∧ effects = [fail msg_no_ordering (reason ctx)])
  ∨ (supported ctx
     ∧ ∃ root, select_root (_analyze_class order ctx) = Some root
               ∧ Unanalyzable (_analyze_class order ctx) root
               ∧ effects = [])
  ∨ (supported ctx
     ∧ ∃ root root_method,
         select_root (_analyze_class order ctx) = Some root
         ∧ Py.getitem root (_analyze_class order ctx) = Some (Some root_method)
         ∧ effects = add_missing order (_analyze_class order ctx)
                       (_find_other_type root_method)
                       (resolve_ret_type ctx root_method)).
Proof.
  destruct (decide (3 ≤ (python_version ctx).1)) as [Hv | Hv];
    fold (supported ctx) in Hv.
  - destruct (_analyze_class order ctx) as [| item d] eqn:E.
    + rewrite (callback_no_methods order ctx _ Hv E). intros [= <-].
      right. left. repeat split. assumption.
    + rewrite <- E in *.
      destruct (select_root (_analyze_class order ctx)) as [root |] eqn:Hroot;
        [| apply select_root_None in Hroot; congruence].
      destruct (select_root_Some _ _ Hroot) as [Hin _].
      apply getitem_Some_elem_of in Hin as [[root_method |] Hget].
      * rewrite (callback_known_root order ctx _ root root_method Hv Hroot Hget).
        intros [= <-]. right. right. right. split; [assumption |].
        exists root, root_method. repeat split. assumption.
      * rewrite (callback_unanalyzable_root order ctx _ root Hv Hroot Hget).
        intros [= <-]. right. right. left. split; [assumption |].
        exists root. repeat split. assumption.
  - unfold functools_total_ordering_maker_callback.
    rewrite tuple_lt_version.
    destruct (Z.ltb_spec (python_version ctx).1 3) as [_ | Hge];
      [| contradiction].
    intros [= <-]. left. split; [assumption | reflexivity].
Qed.

End RunFacts.

(** The iteration order of the set [_ORDERING_METHODS] (which Python does not
    fix) does not matter: two runs on the same context under two orders
    build maps with the same entries, choose the same root, and make the same
    calls up to the order of the [add_method_to_class] calls. *)
Theorem iteration_order_is_immaterial `{Mypy} (order1 order2 : list string)
    (ctx : ClassDefContext) (auto_attribs_default : bool) :
  order1 ≡ₚ order2 →
  (∀ name, Py.getitem name (_analyze_class order1 ctx)
           = Py.getitem name (_analyze_class order2 ctx))
  ∧ select_root (_analyze_class order1 ctx)
    = select_root (_analyze_class order2 ctx)
  ∧ ∃ effects1 effects2,
      functools_total_ordering_maker_callback order1 ctx auto_attribs_default
      = Some effects1
      ∧ functools_total_ordering_maker_callback order2 ctx auto_attribs_default
        = Some effects2
      ∧ effects1 ≡ₚ effects2.
Proof.
  intros Hperm.
  assert (Hext : ∀ name, Py.getitem name (_analyze_class order1 ctx)
                         = Py.getitem name (_analyze_class order2 ctx)).
  { intros name. apply analyze_class_getitem_perm. exact Hperm. }
  pose proof (select_root_ext _ _ Hext) as Hroot.
  split; [exact Hext |]. split; [exact Hroot |].
  unfold functools_total_ordering_maker_callback.
  destruct (Py.tuple_lt _ _); [eexists _, _; repeat split; reflexivity |].
  destruct (_analyze_class order1 ctx) as [| i1 d1] eqn:E1.
  - rewrite (keys_nil_lookup (_analyze_class order2 ctx));
      [eexists _, _; repeat split; reflexivity |].
    intros k. rewrite <- Hext. reflexivity.
  - destruct (_analyze_class order2 ctx) as [| i2 d2] eqn:E2.
    { exfalso. pose proof (keys_nil_lookup (i1 :: d1)) as Hnil.
      discriminate Hnil. intros k. rewrite Hext. reflexivity. }
    cbn [Py.truthy negb]. rewrite <- Hroot.
    destruct (select_root (i1 :: d1)) as [root |] eqn:Hr;
      [| apply select_root_None in Hr; discriminate].
    rewrite <- Hext.
    destruct (select_root_Some _ _ Hr) as [Hin _].
    apply getitem_Some_elem_of in Hin as [[root_method |] Hget]; rewrite Hget.
    + eexists _, _. split; [reflexivity |]. split; [reflexivity |].
      apply add_missing_perm; assumption.
    + eexists _, _. repeat split; reflexivity.
Qed.

(** On the class that defines [__lt__] only, under the order of the source
    text and under another one. *)
Lemma iteration_order_is_immaterial_witness :
  Model.some_order ≡ₚ _ORDERING_METHODS
  ∧ select_root (_analyze_class Model.some_order Model.ctx_lt)
    = select_root (_analyze_class _ORDERING_METHODS Model.ctx_lt)
  ∧ ∃ effects1 effects2,
      functools_total_ordering_maker_callback Model.some_order Model.ctx_lt false
      = Some effects1
      ∧ functools_total_ordering_maker_callback _ORDERING_METHODS Model.ctx_lt
          false = Some effects2
      ∧ effects1 ≡ₚ effects2.
Proof.
  assert (Hperm : Model.some_order ≡ₚ _ORDERING_METHODS) by by_evaluation.
  split; [exact Hperm |].
  exact (proj2 (iteration_order_is_immaterial Model.some_order _ORDERING_METHODS
                  Model.ctx_lt false Hperm)).
Defined.

Section SynthesisFacts.
Context `{Mypy}.
Implicit Types (d : Py.dict (option _MethodInfo)) (ctx : ClassDefContext)
  (order : list string).

Lemma analyze_class_keys_order order ctx k :
  k ∈ Py.keys (_analyze_class order ctx) → k ∈ order.
Proof.
  intros [v Hv]%getitem_Some_elem_of. rewrite analyze_class_getitem in Hv.
  destruct (decide (k ∈ order)); [assumption | discriminate].
Qed.

Lemma closest_declaration_None (classes : list TypeInfo) name :
  closest_declaration classes name = None →
  ∀ cls, cls ∈ classes → names cls !! name = None.
Proof.
  induction classes as [| c classes IH]; simpl; intros Hnone cls Hcls.
  - apply elem_of_nil in Hcls. contradiction.
  - destruct (names c !! name) eqn:E; [discriminate |].
    apply elem_of_cons in Hcls as [-> | Hcls]; [assumption | apply IH; assumption].
Qed.

(** A name that is in the iteration order and has no entry is declared by no
    class of the chain. *)
Lemma no_entry_not_declared order ctx name :
  name ∈ order → Py.getitem name (_analyze_class order ctx) = None →
  ∀ cls, cls ∈ chain ctx → names cls !! name = None.
Proof.
  intros Hname Hget. rewrite analyze_class_getitem in Hget.
  destruct (decide (name ∈ order)); [| contradiction].
  apply closest_declaration_None.
  destruct (closest_declaration (chain ctx) name); [discriminate | reflexivity].
Qed.

Lemma add_missing_length order d (other_type return_type : MypyType) :
  (∀ k, k ∈ Py.keys d → Known d k) →
  length (add_missing order d other_type return_type)
  = length (filter (λ name, name ∉ Py.keys d) order).
Proof.
  intros Hknown. induction order as [| name order IH]; [reflexivity |].
  change (add_missing (name :: order) d other_type return_type)
    with (match Py.get name d with
          | None => [add_method_to_class name [other_argument other_type]
                       return_type]
          | Some _ => []
          end ++ add_missing order d other_type return_type).
  destruct (decide (name ∈ Py.keys d)) as [Hin | Hnot].
  - rewrite filter_cons_False by (intros Hnot; apply Hnot; exact Hin).
    destruct (Hknown name Hin) as [method Hget].
    unfold Py.get. rewrite Hget. exact IH.
  - rewrite filter_cons_True by exact Hnot.
    assert (Hget : Py.getitem name d = None).
    { destruct (Py.getitem name d) eqn:E; [| reflexivity].
      exfalso. apply Hnot, getitem_Some_elem_of. eauto. }
    unfold Py.get. rewrite Hget. simpl. rewrite IH. reflexivity.
Qed.

(** With a Known root, the methods added and the entries of the map add up
    to the four operators. *)
Lemma known_root_count order ctx root root_method :
  order ≡ₚ _ORDERING_METHODS →
  select_root (_analyze_class order ctx) = Some root →
  Py.getitem root (_analyze_class order ctx) = Some (Some root_method) →
  (length (add_missing order (_analyze_class order ctx)
             (_find_other_type root_method) (resolve_ret_type ctx root_method))
   + length (Py.keys (_analyze_class order ctx)) = 4)%nat.
Proof.
  intros Hperm Hroot Hget.
  set (d := _analyze_class order ctx) in *.
  assert (Hknown : ∀ k, k ∈ Py.keys d → Known d k).
  { apply (root_known_all_known d root Hroot). exists root_method. exact Hget. }
  assert (Hnodup : NoDup order).
  { rewrite Hperm. by_evaluation. }
  rewrite add_missing_length by exact Hknown.
  assert (Hkeys : filter (λ name, name ∈ Py.keys d) order ≡ₚ Py.keys d).
  { apply NoDup_Permutation.
    - apply NoDup_filter. exact Hnodup.
    - apply analyze_class_NoDup.
    - intros k. rewrite list_elem_of_filter. split; [intros [? _]; assumption |].
      intros Hk. split; [assumption |].
      apply (analyze_class_keys_order order ctx). exact Hk. }
  pose proof (filter_app_complement (λ name, name ∈ Py.keys d) order) as Hsplit.
  apply Permutation_length in Hsplit. rewrite length_app in Hsplit.
  rewrite (Permutation_length Hkeys) in Hsplit.
  rewrite (Permutation_length Hperm) in Hsplit. simpl in Hsplit. lia.
Qed.

End SynthesisFacts.

(** A run either reports one error and adds nothing, or adds methods and
    reports nothing: its calls are one [fail] with one of the two messages,
    or at most three [add_method_to_class] calls, each for one of the four
    operators. *)
Theorem run_is_one_diagnostic_or_insertions `{Mypy} (order : list string)
    (ctx : ClassDefContext) (auto_attribs_default : bool)
    (effects : list Effect) :
  order ≡ₚ _ORDERING_METHODS →
  functools_total_ordering_maker_callback order ctx auto_attribs_default
  = Some effects →
  effects = [fail msg_python2 (reason ctx)]
  ∨ effects = [fail msg_no_ordering (reason ctx)]
  ∨ ((length effects ≤ 3)%nat
     ∧ ∀ e, e ∈ effects →
            ∃ name args return_type,
              e = add_method_to_class name args return_type
              ∧ name ∈ _ORDERING_METHODS).
Proof.
  intros Hperm Hrun.
  destruct (callback_cases order ctx auto_attribs_default effects Hrun)
    as [[_ ->] | [(_ & _ & ->) | [(_ & root & _ & _ & ->)
        | (_ & root & root_method & Hroot & Hget & ->)]]].
  - left. reflexivity.
  - right. left. reflexivity.
  - right. right. split; [simpl; lia |].
    intros e He. apply elem_of_nil in He. contradiction.
  - right. right. split.
    + pose proof (known_root_count order ctx root root_method Hperm Hroot Hget)
        as Hcount.
      destruct (select_root_Some _ _ Hroot) as [Hin _].
      destruct (Py.keys (_analyze_class order ctx)) as [| k ks];
        [apply elem_of_nil in Hin; contradiction |].
      simpl in Hcount. lia.
    + intros e (name & Hname & _ & ->)%add_missing_elem_of.
      exists name. eexists _, _. split; [reflexivity |].
      rewrite <- Hperm. assumption.
Qed.

(** The run in Python 2 mode and the run on the class that defines [__lt__]
    only. *)
Lemma run_is_one_diagnostic_or_insertions_witness :
  Model.some_order ≡ₚ _ORDERING_METHODS
  ∧ (∃ effects,
       functools_total_ordering_maker_callback Model.some_order Model.ctx_lt false
       = Some effects
       ∧ (length effects ≤ 3)%nat
       ∧ ∀ e, e ∈ effects →
              ∃ name args return_type,
                e = add_method_to_class name args return_type
                ∧ name ∈ _ORDERING_METHODS).
Proof.
  assert (Hperm : Model.some_order ≡ₚ _ORDERING_METHODS) by by_evaluation.
  split; [exact Hperm |].
  assert (Hrun : functools_total_ordering_maker_callback Model.some_order
                   Model.ctx_lt false
                 = Some (add_missing Model.some_order
                           (_analyze_class Model.some_order Model.ctx_lt)
                           Model.int_type Model.bool_type))
    by (vm_compute; reflexivity).
  eexists. split; [exact Hrun |].
  destruct (run_is_one_diagnostic_or_insertions Model.some_order Model.ctx_lt
              false _ Hperm Hrun) as [Hfail | [Hfail | Hadds]].
  - vm_compute in Hfail. discriminate.
  - vm_compute in Hfail. discriminate.
  - exact Hadds.
Defined.

(** In a run with a Known root, the number of methods added and the number
    of operators the scan found add up to four: every operator is either
    found in the chain or added, never both and never neither. *)
Theorem added_and_found_make_four `{Mypy} (order : list string)
    (ctx : ClassDefContext) (auto_attribs_default : bool) (root : string)
    (effects : list Effect) :
  order ≡ₚ _ORDERING_METHODS →
  supported ctx →
  select_root (_analyze_class order ctx) = Some root →
  Known (_analyze_class order ctx) root →
  functools_total_ordering_maker_callback order ctx auto_attribs_default
  = Some effects →
  (length effects + length (Py.keys (_analyze_class order ctx)) = 4)%nat.
Proof.
  intros Hperm Hv Hroot [root_method Hget] Hrun.
  rewrite (callback_known_root order ctx auto_attribs_default root root_method
             Hv Hroot Hget) in Hrun.
  injection Hrun as <-.
  apply (known_root_count order ctx root root_method); assumption.
Qed.

(** The class that defines [__gt__] and [__le__]: two found, two added. *)
Lemma added_and_found_make_four_witness :
  Model.some_order ≡ₚ _ORDERING_METHODS
  ∧ supported Model.ctx_gt_le
  ∧ select_root (_analyze_class Model.some_order Model.ctx_gt_le)
    = Some "__le__"
  ∧ Known (_analyze_class Model.some_order Model.ctx_gt_le) "__le__"
  ∧ ∃ effects,
      functools_total_ordering_maker_callback Model.some_order Model.ctx_gt_le
        false = Some effects
      ∧ (length effects
         + length (Py.keys (_analyze_class Model.some_order Model.ctx_gt_le))
         = 4)%nat
      ∧ length (Py.keys (_analyze_class Model.some_order Model.ctx_gt_le))
        = 2%nat.
Proof.
  assert (Hperm : Model.some_order ≡ₚ _ORDERING_METHODS) by by_evaluation.
  assert (Hv : supported Model.ctx_gt_le) by (unfold supported; simpl; lia).
  assert (Hroot : select_root (_analyze_class Model.some_order Model.ctx_gt_le)
                  = Some "__le__") by (vm_compute; reflexivity).
  assert (Hknown : Known (_analyze_class Model.some_order Model.ctx_gt_le)
                     "__le__") by (eexists; vm_compute; reflexivity).
  assert (Hkeys : length (Py.keys (_analyze_class Model.some_order
                                     Model.ctx_gt_le)) = 2%nat)
    by (vm_compute; reflexivity).
  repeat (split; [assumption |]).
  eexists. split; [vm_compute; reflexivity |]. split; [| exact Hkeys].
  exact (added_and_found_make_four Model.some_order Model.ctx_gt_le false
           "__le__" _ Hperm Hv Hroot Hknown eq_refl).
Defined.

(** The plugin only ever adds an operator that no class of the chain
    declares: a name that is bound anywhere in the chain, to a method with a
    callable signature or to anything else, is never passed to
    [add_method_to_class]. *)
Theorem only_undeclared_operators_are_added `{Mypy} (order : list string)
    (ctx : ClassDefContext) (auto_attribs_default : bool)
    (effects : list Effect) (name : string) (args : list Argument)
    (return_type : MypyType) :
  order ≡ₚ _ORDERING_METHODS →
  functools_total_ordering_maker_callback order ctx auto_attribs_default
  = Some effects →
  add_method_to_class name args return_type ∈ effects →
  name ∈ _ORDERING_METHODS
  ∧ ∀ cls, cls ∈ chain ctx → names cls !! name = None.
Proof.
  intros Hperm Hrun Hin.
  destruct (callback_cases order ctx auto_attribs_default effects Hrun)
    as [[_ ->] | [(_ & _ & ->) | [(_ & root & _ & _ & ->)
        | (_ & root & root_method & Hroot & Hget & ->)]]].
  - apply list_elem_of_singleton in Hin. discriminate.
  - apply list_elem_of_singleton in Hin. discriminate.
  - apply elem_of_nil in Hin. contradiction.
  - apply add_missing_elem_of in Hin as (name' & Hname & Hnot & [= <- _ _]).
    split; [rewrite <- Hperm; assumption |].
    apply (no_entry_not_declared order ctx name Hname).
    destruct (Py.getitem name (_analyze_class order ctx)) as [entry |] eqn:E;
      [exfalso | reflexivity].
    apply Hnot.
    apply (root_known_all_known _ root Hroot); [exists root_method; exact Hget |].
    apply getitem_Some_elem_of. eauto.
Qed.

(** On the class that defines [__lt__] only, [__ge__] is added and neither
    the class nor its base declares it. *)
Lemma only_undeclared_operators_are_added_witness :
  Model.some_order ≡ₚ _ORDERING_METHODS
  ∧ ∃ effects,
      functools_total_ordering_maker_callback Model.some_order Model.ctx_lt false
      = Some effects
      ∧ add_method_to_class "__ge__" [other_argument Model.int_type]
          Model.bool_type ∈ effects
      ∧ ∀ cls, cls ∈ chain Model.ctx_lt → names cls !! "__ge__" = None.
Proof.
  assert (Hperm : Model.some_order ≡ₚ _ORDERING_METHODS) by by_evaluation.
  split; [exact Hperm |].
  assert (Hrun : functools_total_ordering_maker_callback Model.some_order
                   Model.ctx_lt false
                 = Some [add_method_to_class "__ge__"
                           [other_argument Model.int_type] Model.bool_type;
                         add_method_to_class "__gt__"
                           [other_argument Model.int_type] Model.bool_type;
                         add_method_to_class "__le__"
                           [other_argument Model.int_type] Model.bool_type])
    by (vm_compute; reflexivity).
  assert (Hin : add_method_to_class "__ge__" [other_argument Model.int_type]
                  Model.bool_type
                ∈ [add_method_to_class "__ge__"
                     [other_argument Model.int_type] Model.bool_type;
                   add_method_to_class "__gt__"
                     [other_argument Model.int_type] Model.bool_type;
                   add_method_to_class "__le__"
                     [other_argument Model.int_type] Model.bool_type])
    by (apply elem_of_cons; left; reflexivity).
  eexists. split; [exact Hrun |]. split; [exact Hin |].
  exact (proj2 (only_undeclared_operators_are_added Model.some_order
                  Model.ctx_lt false _ "__ge__" _ _ Hperm Hrun Hin)).
Defined.

(** One operator whose closest declaration cannot be analysed silences the
    whole run: in a supported mode, as soon as the closest declaration of
    one of the four operators is not a method or variable with a callable
    type, the plugin adds nothing and reports nothing, whatever the other
    operators are. *)
Theorem one_unanalyzable_declaration_silences_the_run `{Mypy}
    (order : list string) (ctx : ClassDefContext) (auto_attribs_default : bool)
    (name : string) (pre post : list TypeInfo) (cls : TypeInfo)
    (sym : SymbolTableNode) :
  order ≡ₚ _ORDERING_METHODS →
  supported ctx →
  name ∈ _ORDERING_METHODS →
  chain ctx = pre ++ cls :: post →
  (∀ c, c ∈ pre → names c !! name = None) →
  names cls !! name = Some sym →
  method_info_of_node (node sym) = None →
  functools_total_ordering_maker_callback order ctx auto_attribs_default
  = Some [].
Proof.
  intros Hperm Hv Hname Hchain Hpre Hcls Hnone.
  assert (Hentry : Unanalyzable (_analyze_class order ctx) name).
  { unfold Unanalyzable. rewrite analyze_class_getitem, Hchain.
    destruct (decide (name ∈ order)) as [_ | Hnot];
      [| exfalso; apply Hnot; rewrite Hperm; assumption].
    rewrite (closest_declaration_found pre post cls name sym Hpre Hcls).
    simpl. rewrite Hnone. reflexivity. }
  assert (Hkey : name ∈ Py.keys (_analyze_class order ctx)).
  { apply getitem_Some_elem_of. unfold Unanalyzable in Hentry.
    rewrite Hentry. eauto. }
  destruct (select_root (_analyze_class order ctx)) as [root |] eqn:Hroot.
  - apply (callback_unanalyzable_root order ctx _ root Hv Hroot).
    destruct (select_root_Some _ _ Hroot) as [Hin _].
    apply getitem_Some_elem_of in Hin as [[root_method |] Hget];
      [exfalso | exact Hget].
    destruct (root_known_all_known _ root Hroot
                (ex_intro _ root_method Hget) name Hkey) as [method Hmethod].
    unfold Unanalyzable in Hentry. congruence.
  - apply select_root_None in Hroot. rewrite Hroot in Hkey.
    apply elem_of_nil in Hkey. contradiction.
Qed.

(** A class binds [__ge__] to an integer and inherits a well-typed [__lt__]:
    nothing is added. *)
Lemma one_unanalyzable_declaration_silences_the_run_witness :
  Model.some_order ≡ₚ _ORDERING_METHODS
  ∧ supported Model.ctx_unanalyzable_ge
  ∧ Known (_analyze_class Model.some_order Model.ctx_unanalyzable_ge) "__lt__"
  ∧ functools_total_ordering_maker_callback Model.some_order
      Model.ctx_unanalyzable_ge false = Some [].
Proof.
  assert (Hperm : Model.some_order ≡ₚ _ORDERING_METHODS) by by_evaluation.
  assert (Hv : supported Model.ctx_unanalyzable_ge)
    by (unfold supported; simpl; lia).
  split; [exact Hperm |]. split; [exact Hv |].
  split; [eexists; vm_compute; reflexivity |].
  apply (one_unanalyzable_declaration_silences_the_run Model.some_order
           Model.ctx_unanalyzable_ge false "__ge__" []
           [Model.class_of [("__lt__", Model.def_lt)]]
           (Model.class_of [("__ge__", Model.var_int "__ge__")])
           (Model.var_int "__ge__") Hperm Hv).
  - by_evaluation.
  - reflexivity.
  - intros c Hc. apply elem_of_nil in Hc. contradiction.
  - vm_compute. reflexivity.
  - reflexivity.
Defined.

Section PreferenceFacts.
Context `{Mypy}.
Implicit Types (d : Py.dict (option _MethodInfo)).

Lemma higher_name_absent d root name :
  select_root d = Some root → Known d root →
  String.leb name root = false → Py.contains name d = false.
Proof.
  intros Hroot Hknown Hrank.
  destruct (Py.contains name d) eqn:Hin; [exfalso | reflexivity].
  apply contains_true in Hin.
  rewrite (root_greatest_name d root name Hroot Hin) in Hrank; [discriminate |].
  destruct (root_known_all_known d root Hroot Hknown name Hin) as [m Hm].
  destruct Hknown as [m' Hm']. unfold Unanalyzable. rewrite Hm, Hm'.
  split; discriminate.
Qed.

Lemma higher_name_not_None d root name :
  select_root d = Some root → Unanalyzable d root →
  String.leb name root = false → entry_is_None d name = false.
Proof.
  intros Hroot Hun Hrank.
  destruct (entry_is_None d name) eqn:Hnone; [exfalso | reflexivity].
  unfold entry_is_None, root_key in Hnone. simpl in Hnone.
  destruct (Py.getitem name d) as [[m |] |] eqn:Hget; try discriminate.
  rewrite (root_greatest_name d root name Hroot) in Hrank; [discriminate | |].
  - apply getitem_Some_elem_of. rewrite Hget. eauto.
  - unfold Unanalyzable. rewrite Hget. split; intros _; [exact Hun | reflexivity].
Qed.

End PreferenceFacts.

(** The comment of line 39 ("prefer __lt__ to __le__ to __gt__ to __ge__"),
    on the map of the scan: when the root is Known it is the first of
    [__lt__], [__le__], [__gt__], [__ge__] that the map holds; when it is
    Unanalyzable it is the first of them whose entry is [None]. *)
Theorem root_is_first_preferred `{Mypy} (order : list string)
    (ctx : ClassDefContext) (root : string) :
  order ≡ₚ _ORDERING_METHODS →
  select_root (_analyze_class order ctx) = Some root →
  (Known (_analyze_class order ctx) root →
   first_preferred (λ name, Py.contains name (_analyze_class order ctx))
   = Some root)
  ∧ (Unanalyzable (_analyze_class order ctx) root →
     first_preferred (entry_is_None (_analyze_class order ctx)) = Some root).
Proof.
  intros Hperm Hroot.
  destruct (select_root_Some _ _ Hroot) as [Hin _].
  assert (Hname : root ∈ _ORDERING_METHODS).
  { rewrite <- Hperm. apply (analyze_class_keys_order order ctx). exact Hin. }
  split.
  - intros Hknown.
    assert (Hhas : Py.contains root (_analyze_class order ctx) = true)
      by (apply contains_true; exact Hin).
    unfold first_preferred, _ORDERING_METHODS in *. cbn [find].
    repeat (apply elem_of_cons in Hname as [-> | Hname];
            [ rewrite ?(higher_name_absent _ _ "__lt__" Hroot Hknown eq_refl),
                      ?(higher_name_absent _ _ "__le__" Hroot Hknown eq_refl),
                      ?(higher_name_absent _ _ "__gt__" Hroot Hknown eq_refl);
              rewrite Hhas; reflexivity |]).
    apply elem_of_nil in Hname. contradiction.
  - intros Hun.
    assert (Hhas : entry_is_None (_analyze_class order ctx) root = true).
    { unfold entry_is_None, root_key. simpl. rewrite Hun. reflexivity. }
    unfold first_preferred, _ORDERING_METHODS in *. cbn [find].
    repeat (apply elem_of_cons in Hname as [-> | Hname];
            [ rewrite ?(higher_name_not_None _ _ "__lt__" Hroot Hun eq_refl),
                      ?(higher_name_not_None _ _ "__le__" Hroot Hun eq_refl),
                      ?(higher_name_not_None _ _ "__gt__" Hroot Hun eq_refl);
              rewrite Hhas; reflexivity |]).
    apply elem_of_nil in Hname. contradiction.
Qed.

(** The class that defines [__gt__] and [__le__]: the root is [__le__]. *)
Lemma root_is_first_preferred_witness :
  Model.some_order ≡ₚ _ORDERING_METHODS
  ∧ select_root (_analyze_class Model.some_order Model.ctx_gt_le)
    = Some "__le__"
  ∧ Known (_analyze_class Model.some_order Model.ctx_gt_le) "__le__"
  ∧ first_preferred
      (λ name, Py.contains name (_analyze_class Model.some_order Model.ctx_gt_le))
    = Some "__le__".
Proof.
  assert (Hperm : Model.some_order ≡ₚ _ORDERING_METHODS) by by_evaluation.
  assert (Hroot : select_root (_analyze_class Model.some_order Model.ctx_gt_le)
                  = Some "__le__") by (vm_compute; reflexivity).
  assert (Hknown : Known (_analyze_class Model.some_order Model.ctx_gt_le)
                     "__le__") by (eexists; vm_compute; reflexivity).
  repeat (split; [assumption |]).
  exact (proj1 (root_is_first_preferred Model.some_order Model.ctx_gt_le
                  "__le__" Hperm Hroot) Hknown).
Defined.

Section InputFacts.
Context `{Mypy}.
Implicit Types (d : Py.dict (option _MethodInfo)) (ctx : ClassDefContext)
  (order : list string).




Lemma find_other_loop_Some (first cur : Z)
    (params : list (ArgKind * MypyType)) (t : MypyType) :
  find_other_loop first cur params = Some t → ∃ k, (k, t) ∈ params.
Proof.
  revert cur. induction params as [| [k t'] params IH]; intros cur; simpl;
    [discriminate |].
  assert (Hrest : ∀ cur', find_other_loop first cur' params = Some t →
                          ∃ k0, (k0, t) ∈ (k, t') :: params).
  { intros cur' Hloop. destruct (IH cur' Hloop) as [k0 Hk0].
    exists k0. apply elem_of_cons. right. assumption. }
  assert (Hhere : Some t' = Some t → ∃ k0, (k0, t) ∈ (k, t') :: params).
  { intros [= ->]. exists k. apply elem_of_cons. left. reflexivity. }
  case_bool_decide.
  - destruct (Z.eqb cur first); [exact Hhere | apply Hrest].
  - case_bool_decide; simpl; [apply Hrest | exact Hhere].
Qed.

Lemma find_other_loop_required_only (first cur : Z)
    (params : list (ArgKind * MypyType)) :
  find_other_loop first cur (required_only params)
  = find_other_loop first cur params.
Proof.
  unfold required_only. revert cur.
  induction params as [| [k t] params IH]; intros cur; [reflexivity |].
  destruct k;
    first [ rewrite filter_cons_True by (simpl; discriminate)
          | rewrite filter_cons_False
              by (simpl; intros Hne; apply Hne; reflexivity) ];
    rewrite ?fmap_cons; cbn [find_other_loop]; rewrite ?IH; reflexivity.
Qed.

End InputFacts.



(** The operand type is never invented: it is the type of one of the
    parameters of the root, or [AnyType(TypeOfAny.implementation_artifact)]. *)
Theorem operand_type_comes_from_the_signature `{Mypy} (method : _MethodInfo) :
  _find_other_type method = AnyType implementation_artifact
  ∨ _find_other_type method ∈ arg_types (mi_type method).
Proof.
  unfold _find_other_type.
  destruct (find_other_loop _ _ _) as [t |] eqn:Hloop; [right | left; reflexivity].
  apply find_other_loop_Some in Hloop as [k Hk].
  apply elem_of_zip_r in Hk. exact Hk.
Qed.

(** Default values and [**kwargs] do not change the operand type: a
    signature and the same signature without its variadic-keyword parameters
    and with its optional positional parameters made required give the same
    operand type. *)
Theorem defaults_and_kwargs_do_not_matter `{Mypy} (method method' : _MethodInfo) :
  mi_is_static method' = mi_is_static method →
  parameters method' = required_only (parameters method) →
  _find_other_type method' = _find_other_type method.
Proof.
  intros Hstatic Hparams. unfold _find_other_type.
  fold (parameters method) (parameters method').
  rewrite Hstatic, Hparams, find_other_loop_required_only. reflexivity.
Qed.

(** A method [(self, other: int = ..., **kwargs: str)] and the method
    [(self, other: int)]. *)
Lemma defaults_and_kwargs_do_not_matter_witness :
  parameters Model.method_lt
  = required_only (parameters Model.method_with_default_and_kwargs)
  ∧ _find_other_type Model.method_lt
    = _find_other_type Model.method_with_default_and_kwargs.
Proof.
  assert (Hparams : parameters Model.method_lt
                    = required_only
                        (parameters Model.method_with_default_and_kwargs))
    by reflexivity.
  split; [exact Hparams |].
  exact (defaults_and_kwargs_do_not_matter Model.method_with_default_and_kwargs
           Model.method_lt eq_refl Hparams).
Defined.
